(** * epub2md: the ePUB to Obsidian pipeline of [src/epub2md.py]

    A shallow embedding of [step_2] (the Splitter), [step_3] (the Metadata
    Injector), [step_4] (the Resource Appender) and [main], with the
    properties of the specification proved about them.

    Modelling choices, all taken from the Python source:

    - A Python [str] is a sequence of Unicode code points: [list N].  String
      literals of the source are written [py "..."]; the newline character
      is [LF].
    - The file system is a finite map from path strings to the text that a
      text-mode [read()] of the file returns.  On POSIX a text-mode
      [write(s)] stores [s] unchanged, and every string the pipeline writes
      is built from strings it has read, so reading it back returns it
      unchanged.  [os.makedirs(..., exist_ok=True)] has no counterpart in a
      flat store; opening a missing file for reading raises
      [FileNotFoundError]; opening a path for writing always succeeds (the
      store puts no limit on the length or the characters of a file name).
    - [os.path] is [posixpath].
    - [print] appends a [message] to the console, one constructor per
      [print] statement of the source.
    - [heading_lvl] is the integer [int(heading_lvl)]: the command line
      gives a numeral.
    - The only failures modelled are a read of a missing file and an index
      out of range.  A directory that cannot be created, a file that cannot
      be opened for writing and text that cannot be decoded are left out:
      the properties below say what is read, split, written and left alone,
      not which failures of the operating system can occur.
    - The external converter run by [step_1] is a parameter [pandoc]: an
      arbitrary transformer of the file system. *)

From Stdlib Require Import Ascii String NArith ZArith.
From stdpp Require Import strings list gmap.
From Equations Require Import Equations.

Local Open Scope N_scope.

(** ** Python strings *)

Abbreviation char := N (only parsing).
Abbreviation str := (list N) (only parsing).

(** The code points of an ASCII literal of the source. *)
Definition py (s : string) : str :=
  (λ a, N_of_ascii a) <$> list_ascii_of_string s.

Definition LF : char := 10.
Definition CR : char := 13.
Definition HASH : char := 35.
Definition SPACE : char := 32.
Definition DOT : char := 46.
Definition SLASH : char := 47.

(** [s.startswith(prefix)] *)
Fixpoint startswith (s prefix : str) {struct prefix} : bool :=
  match prefix, s with
  | [], _ => true
  | _ :: _, [] => false
  | p :: prefix', c :: s' => (c =? p) && startswith s' prefix'
  end.

(** [s.endswith(suffix)] *)
Definition endswith (s suffix : str) : bool :=
  startswith (rev s) (rev suffix).

(** [Py_UNICODE_ISSPACE]: the characters [str.strip()] removes. *)
Definition isspace (c : char) : bool :=
  ((9 <=? c) && (c <=? 13)) || ((28 <=? c) && (c <=? 32))
  || (c =? 133) || (c =? 160) || (c =? 5760)
  || ((8192 <=? c) && (c <=? 8202))
  || (c =? 8232) || (c =? 8233) || (c =? 8239) || (c =? 8287) || (c =? 12288).

(** [Py_UNICODE_ISLINEBREAK]: the line boundaries of [str.splitlines()]. *)
Definition islinebreak (c : char) : bool :=
  ((10 <=? c) && (c <=? 13)) || ((28 <=? c) && (c <=? 30))
  || (c =? 133) || (c =? 8232) || (c =? 8233).

(** Removal of the leading characters that satisfy [p]:
    [s.lstrip("#")] is [lstrip_if (N.eqb HASH) s]. *)
Fixpoint lstrip_if (p : char → bool) (s : str) : str :=
  match s with
  | [] => []
  | c :: s' => if p c then lstrip_if p s' else s
  end.

Definition rstrip_if (p : char → bool) (s : str) : str :=
  rev (lstrip_if p (rev s)).

(** [s.strip()] *)
Definition strip (s : str) : str := rstrip_if isspace (lstrip_if isspace s).

(** [s.splitlines()]: the lines of [s] without their terminators; a
    carriage return directly followed by a line feed is one terminator, and
    a terminator at the very end opens no further line. *)
Fixpoint splitlines (s : str) : list str :=
  match s with
  | [] => []
  | c :: s' =>
      if islinebreak c then
        match s' with
        | d :: s'' =>
            if (c =? CR) && (d =? LF) then [] :: splitlines s''
            else [] :: splitlines s'
        | [] => [[]]
        end
      else
        match splitlines s' with
        | [] => [[c]]
        | line :: lines => (c :: line) :: lines
        end
  end.

(** [sep.join(l)] *)
Fixpoint join (sep : str) (l : list str) : str :=
  match l with
  | [] => []
  | [x] => x
  | x :: l' => x ++ sep ++ join sep l'
  end.

(** [c * n] for a one-character string [c]; a negative [n] gives the
    empty string. *)
Definition times (c : char) (n : Z) : str := replicate (Z.to_nat n) c.

(** The character class of the regular expression in [step_2]: backslash,
    slash, star, question mark, colon, double quote, less-than,
    greater-than and vertical bar. *)
Definition illegal (c : char) : bool :=
  (c =? 92) || (c =? 47) || (c =? 42) || (c =? 63) || (c =? 58)
  || (c =? 34) || (c =? 60) || (c =? 62) || (c =? 124).

(** [re.sub] of that class by the empty string. *)
Definition sanitize (s : str) : str :=
  List.filter (λ c, negb (illegal c)) s.

(** [s.replace(old, new)]: the occurrences of [old] are found from left to
    right, without overlap; an empty [old] matches before every character
    and at the end. *)
Equations? replace (old new s : str) : str by wf (length s) lt :=
  replace [] new s := new ++ flat_map (λ c, c :: new) s;
  replace (o :: old) new [] := [];
  replace (o :: old) new (c :: s') with startswith (c :: s') (o :: old) => {
    | true := new ++ replace (o :: old) new (drop (length (o :: old)) (c :: s'));
    | false := c :: replace (o :: old) new s' }.
Proof.
  all: simpl; try rewrite length_drop; lia.
Qed.

(** [s.lower()] on the code points that matter to [step_3]: outside ASCII
    no character is lowered to ['.'], ['m'] or ['d'], and those are the
    only characters the test [endswith(".md")] looks at. *)
Definition lower_char (c : char) : char :=
  if (65 <=? c) && (c <=? 90) then c + 32 else c.

Definition lower (s : str) : str := lower_char <$> s.

(** ** Paths ([posixpath]) *)

(** [s.rfind(c)] for a one-character [c]: the last index of [c] in [s], or
    [-1]. *)
Fixpoint rfind (c : char) (s : str) : Z :=
  match s with
  | [] => -1
  | d :: s' =>
      let r := rfind c s' in
      if (0 <=? r)%Z then (r + 1)%Z else if d =? c then 0%Z else (-1)%Z
  end.

(** The slice [l[i:j]] for indices that are not negative. *)
Definition slice {A} (l : list A) (i j : nat) : list A := drop i (take j l).

(** [os.path.join(a, b)] *)
Definition os_path_join (a b : str) : str :=
  if startswith b [SLASH] then b
  else if bool_decide (a = []) || endswith a [SLASH] then a ++ b
  else a ++ [SLASH] ++ b.

(** [os.path.basename(p)] *)
Definition os_path_basename (p : str) : str :=
  drop (Z.to_nat (rfind SLASH p + 1)) p.

(** [os.path.splitext(p)]: the extension starts at the last dot of the last
    component, unless that component has only dots before it. *)
Definition os_path_splitext (p : str) : str * str :=
  let sepIndex := rfind SLASH p in
  let dotIndex := rfind DOT p in
  if (sepIndex <? dotIndex)%Z
     && existsb (λ c, negb (c =? DOT))
          (slice p (Z.to_nat (sepIndex + 1)) (Z.to_nat dotIndex))
  then (take (Z.to_nat dotIndex) p, drop (Z.to_nat dotIndex) p)
  else (p, []).

(** ** Files, console and exceptions *)

Inductive exn : Type :=
| FileNotFoundError (path : str)
| IndexError.

(** One constructor per [print] statement. *)
Inductive message : Type :=
| Step1Running (epub_path attachments_dir outfile_path : str)
| Step1Artifacts
| Step1Done
| Step2Splitting (heading_lvl : Z)
| Step2NoHeadings (heading_lvl : Z)
| Step2Done (created : nat)
| Step3Prepending
| Step3Done
| Step4Appending
| Step4Done
| FinalStepReview
| PipelineStarting
| OnlyStep1Executed
| NoNotesCreated
| PipelineComplete.

Record state : Type := State {
  files : gmap (list N) (list N);
  console : list message
}.

Inductive outcome (A : Type) : Type :=
| Ok (a : A)
| Raise (e : exn).
Arguments Ok {A} a.
Arguments Raise {A} e.

(** A computation runs on a state and leaves a state behind, also when it
    raises: what was written before an exception stays written. *)
Definition M (A : Type) : Type := state → outcome A * state.

Definition ret {A} (a : A) : M A := λ st, (Ok a, st).

Definition bind {A B} (m : M A) (k : A → M B) : M B :=
  λ st, match m st with
        | (Ok a, st') => k a st'
        | (Raise e, st') => (Raise e, st')
        end.

Definition raise {A} (e : exn) : M A := λ st, (Raise e, st).

Notation "'let*' x ':=' m 'in' k" := (bind m (λ x, k))
  (at level 10, x name, m at level 100, k at level 200).
Notation "m '>>' k" := (bind m (λ _, k))
  (at level 100, k at level 200, right associativity).

(** [print(...)] *)
Definition print (msg : message) : M unit :=
  λ st, (Ok (), State (files st) (console st ++ [msg])).

(** [open(path, "r").read()] *)
Definition read (path : str) : M str :=
  λ st, match files st !! path with
        | Some content => (Ok content, st)
        | None => (Raise (FileNotFoundError path), st)
        end.

(** [open(path, "w").write(content)] *)
Definition write (path content : str) : M unit :=
  λ st, (Ok (), State (<[path := content]> (files st)) (console st)).

(** [for x in l: body(x)] *)
Fixpoint for_each {A} (body : A → M unit) (l : list A) : M unit :=
  match l with
  | [] => ret ()
  | x :: l' => body x >> for_each body l'
  end.

(** A [for] loop that updates a local variable [acc]. *)
Fixpoint for_fold {A B} (body : B → A → M B) (acc : B) (l : list A) : M B :=
  match l with
  | [] => ret acc
  | x :: l' => let* acc' := body acc x in for_fold body acc' l'
  end.

(** [enumerate(l)], counting from [n]. *)
Fixpoint enumerate_from {A} (n : nat) (l : list A) : list (nat * A) :=
  match l with
  | [] => []
  | x :: l' => (n, x) :: enumerate_from (S n) l'
  end.

Definition enumerate {A} (l : list A) : list (nat * A) := enumerate_from 0 l.

(** [l[0]] *)
Definition first_item {A} (l : list A) : M A :=
  match l with
  | [] => raise IndexError
  | x :: _ => ret x
  end.

(** ** The pipeline *)

Definition md_ext : str := py ".md".
Definition NEXT_NOTE_LINK : str := py "<NEXT_NOTE_LINK>".
Definition blank_line : str := [LF; LF].

(** The prefix [heading_str + " "] that [step_2] compares each line with. *)
Definition heading_prefix (heading_lvl : Z) : str :=
  times HASH heading_lvl ++ [SPACE].

(** [[idx for idx, line in enumerate(lines) if line.startswith(prefix)]] *)
Definition split_indices_of (lines : list str) (prefix : str) : list nat :=
  fst <$> filter (λ il, startswith il.2 prefix) (enumerate lines).

(** [split_indices[i + 1] if (i + 1) < len(split_indices) else len(lines)] *)
Definition end_index_of (lines : list str) (split_indices : list nat)
    (i : nat) : nat :=
  if bool_decide (i + 1 < length split_indices)%nat
  then nth (i + 1) split_indices 0%nat
  else length lines.

(** [chunk_lines[0].lstrip("#").strip()] and the substitution after it. *)
Definition safe_heading_of (heading_line : str) : str :=
  sanitize (strip (lstrip_if (N.eqb HASH) heading_line)).

Definition note_file_path_of (outdir_path heading_line : str) : str :=
  os_path_join outdir_path (safe_heading_of heading_line ++ md_ext).

(** The body of the loop of [step_2]. *)
Definition step_2_body (outdir_path : str) (lines : list str)
    (split_indices : list nat) (note_file_paths : list str)
    (entry : nat * nat) : M (list str) :=
  let i := entry.1 in
  let start_index := entry.2 in
  let end_index := end_index_of lines split_indices i in
  let chunk_lines := slice lines start_index end_index in
  let* heading_line := first_item chunk_lines in
  let note_file_path := note_file_path_of outdir_path heading_line in
  write note_file_path (join [LF] chunk_lines ++ [LF]) >>
  ret (note_file_paths ++ [note_file_path]).

Definition step_2 (outfile_path outdir_path : str) (heading_lvl : Z)
    : M (list str) :=
  print (Step2Splitting heading_lvl) >>
  let* content := read outfile_path in
  let lines := splitlines content in
  let split_indices := split_indices_of lines (heading_prefix heading_lvl) in
  match split_indices with
  | [] => print (Step2NoHeadings heading_lvl) >> ret []
  | _ :: _ =>
      let* note_file_paths :=
        for_fold (step_2_body outdir_path lines split_indices) []
          (enumerate split_indices) in
      print (Step2Done (length note_file_paths)) >>
      ret note_file_paths
  end.

(** The body of the loop of [step_3]. *)
Definition step_3_body (yaml_template note_path : str) : M unit :=
  if endswith (lower note_path) md_ext then
    let* original_content := read note_path in
    write note_path (yaml_template ++ blank_line ++ original_content)
  else ret ().

Definition step_3 (note_files : list str) (metadata_path : str) : M unit :=
  print Step3Prepending >>
  let* template := read metadata_path in
  let yaml_template := strip template in
  for_each (step_3_body yaml_template) note_files >>
  print Step3Done.

(** [next_note_link] of [step_4] for the note at position [i]. *)
Definition next_note_link_of (note_files : list str) (i : nat) : str :=
  if bool_decide (Z.of_nat i < Z.of_nat (length note_files) - 1)%Z then
    let next_note := nth (i + 1) note_files [] in
    let next_name := os_path_basename next_note in
    let next_name_no_ext := (os_path_splitext next_name).1 in
    py "[[" ++ next_name_no_ext ++ py "]]"
  else py "N/A".

Definition resources_content_of (resources_base : str)
    (note_files : list str) (i : nat) : str :=
  replace NEXT_NOTE_LINK (next_note_link_of note_files i) resources_base.

(** The body of the loop of [step_4]. *)
Definition step_4_body (resources_base : str) (note_files : list str)
    (entry : nat * str) : M unit :=
  let i := entry.1 in
  let current_note := entry.2 in
  let resources_content := resources_content_of resources_base note_files i in
  let* original_content := read current_note in
  write current_note
    (original_content ++ blank_line ++ resources_content ++ [LF]).

Definition step_4 (note_files : list str) (resources_path : str) : M unit :=
  print Step4Appending >>
  let* template := read resources_path in
  let resources_base := strip template in
  for_each (step_4_body resources_base note_files) (enumerate note_files) >>
  print Step4Done >>
  print FinalStepReview.

(** The parsed command line. *)
Record args : Type := Args {
  arg_epub : str;
  arg_outfile : str;
  arg_attachments : str;
  arg_metadata : str;
  arg_resources : str;
  arg_outdir : str;
  arg_heading_level : Z;
  arg_step_1 : bool;
  arg_no_step_1 : bool
}.

Section Pipeline.

(** What the converter leaves on the file system when it is run on
    [epub_path] with [--extract-media=attachments_dir] and
    [-o outfile_path]; its exit status is not looked at. *)
Variable pandoc : str → str → str → gmap (list N) (list N) → gmap (list N) (list N).

Definition step_1 (epub_path attachments_dir outfile_path : str) : M unit :=
  print (Step1Running epub_path attachments_dir outfile_path) >>
  (λ st, (Ok (),
          State (pandoc epub_path attachments_dir outfile_path (files st))
                (console st))) >>
  print Step1Artifacts >>
  print Step1Done.

Definition main (a : args) : M unit :=
  print PipelineStarting >>
  if arg_step_1 a then
    step_1 (arg_epub a) (arg_attachments a) (arg_outfile a) >>
    print OnlyStep1Executed
  else
    (if negb (arg_no_step_1 a)
     then step_1 (arg_epub a) (arg_attachments a) (arg_outfile a)
     else ret ()) >>
    let* note_files :=
      step_2 (arg_outfile a) (arg_outdir a) (arg_heading_level a) in
    match note_files with
    | [] => print NoNotesCreated
    | _ :: _ =>
        step_3 note_files (arg_metadata a) >>
        step_4 note_files (arg_resources a) >>
        print PipelineComplete
    end.

(** The state in which [main] calls [step_2]: the conversion has run,
    unless it was switched off. *)
Definition converted (a : args) (st : state) : state :=
  let started := State (files st) (console st ++ [PipelineStarting]) in
  if arg_no_step_1 a then started
  else State (pandoc (arg_epub a) (arg_attachments a) (arg_outfile a)
                (files st))
             (console started
              ++ [Step1Running (arg_epub a) (arg_attachments a)
                    (arg_outfile a);
                  Step1Artifacts; Step1Done]).

End Pipeline.

(** ** The loops in closed form *)

(** The values [chunk_lines] takes in the loop of [step_2], in order. *)
Definition chunks_of (lines : list str) (split_indices : list nat)
    : list (list str) :=
  (λ entry, slice lines entry.2 (end_index_of lines split_indices entry.1))
    <$> enumerate split_indices.

(** What one iteration of the loop of [step_2] does with its chunk. *)
Definition chunk_path (outdir_path : str) (chunk_lines : list str) : str :=
  note_file_path_of outdir_path (hd [] chunk_lines).

Definition chunk_content (chunk_lines : list str) : str :=
  join [LF] chunk_lines ++ [LF].

Definition write_chunk (outdir_path : str) (fs : gmap (list N) (list N))
    (chunk_lines : list str) : gmap (list N) (list N) :=
  <[chunk_path outdir_path chunk_lines := chunk_content chunk_lines]> fs.

(** ** The Splitter as the specification words it

    Section 4.1: a new chunk begins at each heading line and runs up to, but
    not including, the next one, or to the end of the document; what comes
    before the first heading line belongs to no chunk.  [spec_split]
    returns that discarded preamble and the chunks. *)
Fixpoint spec_split (is_heading : str → bool) (lines : list str)
    : list str * list (list str) :=
  match lines with
  | [] => ([], [])
  | line :: lines' =>
      let rest := spec_split is_heading lines' in
      if is_heading line then ([], (line :: rest.1) :: rest.2)
      else (line :: rest.1, rest.2)
  end.

(** ** The vocabulary of the properties *)

(** A text ends in exactly one newline: in one, and not in two. *)
Definition one_trailing_newline (s : str) : bool :=
  endswith s [LF] && negb (endswith s [LF; LF]).

(** The number of leading heading markers of a line. *)
Fixpoint marker_run (line : str) : nat :=
  match line with
  | c :: line' => if c =? HASH then S (marker_run line') else 0%nat
  | [] => 0%nat
  end.

(** [text] occurs in [s]. *)
Fixpoint occurs (text s : str) : bool :=
  startswith s text ||
  match s with
  | [] => false
  | _ :: s' => occurs text s'
  end.

(** The positions of [x] in [l]. *)
Definition positions (x : str) (l : list str) : list nat :=
  fst <$> filter (λ entry, entry.2 = x) (enumerate l).

(** A chunk is a heading line followed by lines that are not headings. *)
Definition well_formed_chunk (is_heading : str → bool) (chunk : list str)
    : Prop :=
  ∃ heading body,
    chunk = heading :: body ∧ is_heading heading = true
    ∧ Forall (λ line, is_heading line = false) body.

(** The indices of the heading lines, counted from [n]. *)
Definition split_indices_from (n : nat) (lines : list str) (prefix : str)
    : list nat :=
  fst <$> filter (λ il, startswith il.2 prefix) (enumerate_from n lines).

(** What [step_2] prints last. *)
Definition step_2_report (heading_lvl : Z) (created : nat) : message :=
  match created with
  | O => Step2NoHeadings heading_lvl
  | S _ => Step2Done created
  end.

(** The test of [step_3] on a note path. *)
Definition is_md (note_path : str) : bool := endswith (lower note_path) md_ext.

(** [new_content] of [step_3]. *)
Definition prepend_metadata (yaml_template original_content : str) : str :=
  yaml_template ++ blank_line ++ original_content.

(** How often [x] is listed in [l]. *)
Definition occurrences (x : str) (l : list str) : nat :=
  length (filter (λ y, y = x) l).

(** What [step_4] appends to the note at position [i]. *)
Definition resources_block (resources_base : str) (note_files : list str)
    (i : nat) : str :=
  blank_line ++ resources_content_of resources_base note_files i ++ [LF].

Definition positions_from (n : nat) (x : str) (l : list str) : list nat :=
  fst <$> filter (λ entry, entry.2 = x) (enumerate_from n l).

(** ** The reference to the next note as the specification words it

    Section 4.3: if a note exists at position [i + 1], the link that embeds
    its base name, the file name without extension; otherwise the sentinel.
    Section 6: a note file has the extension [.md]. *)

(** The file name of a path: what follows its last slash. *)
Fixpoint spec_file_name (path : str) : str :=
  match path with
  | [] => []
  | c :: rest =>
      if bool_decide (SLASH ∈ rest) then spec_file_name rest
      else if c =? SLASH then rest else path
  end.

(** The file name without the extension of a note file. *)
Definition spec_base_name (path : str) : str :=
  let name := spec_file_name path in
  if endswith name md_ext then take (length name - length md_ext) name
  else name.

Definition spec_next_note_reference (note_files : list str) (i : nat) : str :=
  match note_files !! S i with
  | Some next_note => py "[[" ++ spec_base_name next_note ++ py "]]"
  | None => py "N/A"
  end.

(** The name that the link to a note file shows: its base name, unless
    that is empty or made of dots only; the link then shows the whole file
    name, extension included. *)
Definition link_name_of (path : str) : str :=
  if existsb (λ c, negb (c =? DOT)) (spec_base_name path)
  then spec_base_name path
  else spec_file_name path.

(** ** The appended resources as the specification words them

    Section 4.3: the substituted text is appended to the current content of
    the note, separated by a blank line.  Read in lines: the lines of the
    current content, one empty line, the lines of the text. *)
Definition spec_appended_lines (current text : str) : list str :=
  splitlines current ++ [[]] ++ splitlines text.

(** ** A small library to run the pipeline on

    The combined document of the round-trip scenario of the specification
    and the two templates. *)
Definition example_document : str :=
  py "# A" ++ [LF] ++ py "foo" ++ [LF] ++ py "# B" ++ [LF] ++ py "bar".

Definition example_metadata : str :=
  py "---" ++ [LF] ++ py "tags: book" ++ [LF] ++ py "---" ++ [LF].

Definition example_resources : str :=
  py "Next: <NEXT_NOTE_LINK>" ++ [LF].

Definition example_state : state :=
  State {[ py "book.md" := example_document;
           py "templates/metadata.yml" := example_metadata;
           py "templates/resources.md" := example_resources ]} [].

(** ** The vocabulary of further properties *)

(** [link] cannot be part of an occurrence of [text]: it has not the first
    character of [text], and where an occurrence would run into it, the
    two disagree. *)
Definition apart_from (text link : str) : Prop :=
  (∀ first rest, text = first :: rest → first ∉ link)
  ∧ ∀ k, (1 ≤ k < length text)%nat →
         startswith link (drop k text) = false
         ∧ startswith (drop k text) link = false.

(** * Properties *)

(** ** Strings *)

Lemma startswith_app (s prefix : str) :
  startswith s prefix = true ↔ ∃ rest, s = prefix ++ rest.
Proof.
  revert s. induction prefix as [|p prefix IH]; intros s; simpl.
  - split; [intros _; by exists s | done].
  - destruct s as [|c s]; simpl.
    + split; [done | intros [rest Hrest]; discriminate].
    + rewrite andb_true_iff, N.eqb_eq, IH. split.
      * intros [-> [rest ->]]. by exists rest.
      * intros [rest Hrest]. injection Hrest as -> ->. eauto.
Qed.

Lemma startswith_refl_app (prefix rest : str) :
  startswith (prefix ++ rest) prefix = true.
Proof. apply startswith_app. by exists rest. Qed.

Lemma endswith_app (s suffix : str) :
  endswith s suffix = true ↔ ∃ front, s = front ++ suffix.
Proof.
  unfold endswith. rewrite startswith_app. split.
  - intros [rest Hrest]. exists (rev rest).
    apply (f_equal (@rev N)) in Hrest.
    by rewrite rev_involutive, rev_app_distr, rev_involutive in Hrest.
  - intros [front ->]. exists (rev front). by rewrite rev_app_distr.
Qed.

(** ** Chunks: the specification's reading *)

Section SpecSplit.

Variable is_heading : str → bool.

Lemma spec_split_app (lines : list str) :
  lines = (spec_split is_heading lines).1
          ++ concat (spec_split is_heading lines).2.
Proof.
  induction lines as [|line lines IH]; simpl; [done|].
  destruct (is_heading line); simpl; by rewrite <- IH.
Qed.

Lemma spec_split_preamble (lines : list str) :
  Forall (λ line, is_heading line = false) (spec_split is_heading lines).1.
Proof.
  induction lines as [|line lines IH]; simpl; [constructor|].
  destruct (is_heading line) eqn:Hline; simpl; by constructor.
Qed.

Lemma spec_split_chunks (lines : list str) :
  Forall (well_formed_chunk is_heading) (spec_split is_heading lines).2.
Proof.
  induction lines as [|line lines IH]; simpl; [constructor|].
  destruct (is_heading line) eqn:Hline; simpl; [|done].
  constructor; [|done].
  exists line, (spec_split is_heading lines).1.
  split_and!; [done..|apply spec_split_preamble].
Qed.

Lemma spec_split_headings (lines : list str) :
  hd [] <$> (spec_split is_heading lines).2 = List.filter is_heading lines.
Proof.
  induction lines as [|line lines IH]; [done|]. cbn.
  destruct (is_heading line); cbn; by rewrite <- ?IH.
Qed.

Lemma spec_split_no_heading (lines : list str) :
  List.filter is_heading lines = [] → (spec_split is_heading lines).2 = [].
Proof.
  intros Hnone. pose proof (spec_split_headings lines) as Hheads.
  rewrite Hnone in Hheads. by destruct (spec_split is_heading lines).2.
Qed.

End SpecSplit.

(** ** Chunks: the indices of the code *)

Lemma enumerate_from_length {A} (n : nat) (l : list A) :
  length (enumerate_from n l) = length l.
Proof. revert n. induction l; intros n; simpl; [done | by rewrite IHl]. Qed.

Lemma enumerate_from_app {A} (n : nat) (l1 l2 : list A) :
  enumerate_from n (l1 ++ l2)
  = enumerate_from n l1 ++ enumerate_from (n + length l1) l2.
Proof.
  revert n. induction l1 as [|x l1 IH]; intros n; simpl.
  - by rewrite Nat.add_0_r.
  - rewrite IH. do 3 f_equal. lia.
Qed.

Lemma enumerate_from_lookup {A} (n : nat) (l : list A) (i : nat) (x : A) :
  (i, x) ∈ enumerate_from n l ↔ (n ≤ i)%nat ∧ l !! (i - n)%nat = Some x.
Proof.
  revert n. induction l as [|y l IH]; intros n; simpl.
  - rewrite elem_of_nil. naive_solver.
  - rewrite elem_of_cons, IH. split.
    + intros [[= -> ->] | [Hle Hlook]].
      * split; [lia|]. by rewrite Nat.sub_diag.
      * split; [lia|]. by replace (i - n)%nat with (S (i - S n)) by lia.
    + intros [Hle Hlook]. destruct (decide (i = n)) as [->|Hne].
      * left. rewrite Nat.sub_diag in Hlook. simpl in Hlook. congruence.
      * right. split; [lia|].
        by replace (i - n)%nat with (S (i - S n)) in Hlook by lia.
Qed.

Lemma split_indices_from_cons (n : nat) (line : str) (lines : list str)
    (prefix : str) :
  split_indices_from n (line :: lines) prefix
  = if startswith line prefix
    then n :: split_indices_from (S n) lines prefix
    else split_indices_from (S n) lines prefix.
Proof.
  unfold split_indices_from. simpl. rewrite filter_cons. simpl.
  destruct (startswith line prefix); by case_decide.
Qed.

Lemma split_indices_from_length (n : nat) (lines : list str) (prefix : str) :
  length (split_indices_from n lines prefix)
  = length (List.filter (λ line, startswith line prefix) lines).
Proof.
  revert n. induction lines as [|line lines IH]; intros n; [done|].
  rewrite split_indices_from_cons. simpl.
  destruct (startswith line prefix); simpl; by rewrite IH.
Qed.

Lemma split_indices_from_elem (n : nat) (lines : list str) (prefix : str)
    (idx : nat) :
  idx ∈ split_indices_from n lines prefix
  ↔ (n ≤ idx)%nat ∧ ∃ line, lines !! (idx - n)%nat = Some line
                              ∧ startswith line prefix = true.
Proof.
  unfold split_indices_from. rewrite list_elem_of_fmap. split.
  - intros [[i line] [-> Hin]]. apply list_elem_of_filter in Hin as [Hp Hin].
    apply enumerate_from_lookup in Hin as [Hle Hlook]. simpl in *.
    split; [done|]. exists line. split; [done|]. by apply Is_true_eq_true.
  - intros [Hle (line & Hlook & Hp)]. exists (idx, line). split; [done|].
    apply list_elem_of_filter. split; [by apply Is_true_eq_left|].
    by apply enumerate_from_lookup.
Qed.

Lemma slice_app_drop {A} (past l : list A) (k : nat) :
  slice (past ++ l) (length past) (length past + k) = take k l.
Proof.
  unfold slice. rewrite take_app_add'; [|done]. by rewrite drop_app_length.
Qed.

(** The end of a chunk is the next split index, or the number of lines. *)
Lemma chunks_of_bounds_from (lines : list str) (seen rest : list nat) :
  (λ entry, slice lines entry.2 (end_index_of lines (seen ++ rest) entry.1))
    <$> enumerate_from (length seen) rest
  = zip_with (slice lines) rest (tail rest ++ [length lines]).
Proof.
  revert seen. induction rest as [|start rest IH]; intros seen; [done|].
  cbn [enumerate_from fmap list_fmap tail].
  replace (seen ++ start :: rest) with ((seen ++ [start]) ++ rest)
    by by rewrite <- app_assoc.
  specialize (IH (seen ++ [start])).
  rewrite length_app, Nat.add_1_r in IH. cbn [length] in IH. rewrite IH.
  unfold end_index_of at 1. cbn [fst snd].
  rewrite !length_app. cbn [length].
  destruct rest as [|next rest]; cbn [length].
  - rewrite bool_decide_eq_false_2 by lia. done.
  - rewrite bool_decide_eq_true_2 by lia.
    rewrite app_nth2; rewrite length_app; cbn [length]; [|lia].
    replace (length seen + 1 - (length seen + 1))%nat with 0%nat by lia.
    done.
Qed.

Lemma chunks_of_bounds (lines : list str) (split_indices : list nat) :
  chunks_of lines split_indices
  = zip_with (slice lines) split_indices
      (tail split_indices ++ [length lines]).
Proof. apply (chunks_of_bounds_from lines []). Qed.

(** The chunks the code cuts by index are the chunks of the specification. *)
Lemma chunks_from_spec (prefix : str) (lines past : list str) :
  let split_indices := split_indices_from (length past) lines prefix in
  let split := spec_split (λ line, startswith line prefix) lines in
  zip_with (slice (past ++ lines)) split_indices
    (tail split_indices ++ [length (past ++ lines)]) = split.2
  ∧ hd (length (past ++ lines)) split_indices
    = (length past + length split.1)%nat.
Proof.
  revert past. induction lines as [|line lines IH]; intros past.
  - simpl. rewrite app_nil_r. split; [done | lia].
  - cbn zeta. rewrite split_indices_from_cons.
    pose proof (IH (past ++ [line])) as IH'. cbn zeta in IH'.
    replace (length (past ++ [line])) with (S (length past)) in IH'
      by (rewrite length_app; simpl; lia).
    rewrite <- app_assoc in IH'. cbn [app] in IH'.
    destruct IH' as [IHchunks IHhead].
    pose proof (spec_split_app (λ l, startswith l prefix) lines) as Happ.
    cbn [spec_split].
    destruct (startswith line prefix) eqn:Hline; cbn [fst snd hd].
    + split; [|cbn [length]; lia].
      set (rest := split_indices_from (S (length past)) lines prefix) in *.
      assert (slice (past ++ line :: lines) (length past)
                (hd (length (past ++ line :: lines)) rest)
              = line :: (spec_split (λ l, startswith l prefix) lines).1)
        as Hfirst.
      { rewrite IHhead.
        replace (S (length past)
                 + length (spec_split (λ l, startswith l prefix) lines).1)%nat
          with (length past
                + S (length (spec_split (λ l, startswith l prefix) lines).1))%nat
          by lia.
        rewrite slice_app_drop. cbn [take]. f_equal.
        set (split := spec_split (λ l, startswith l prefix) lines) in *.
        transitivity (take (length split.1) (split.1 ++ concat split.2));
          [by rewrite <- Happ | apply take_app_length]. }
      destruct rest as [|next rest]; cbn [tail app zip_with hd] in *.
      * by rewrite Hfirst, <- IHchunks.
      * by rewrite Hfirst, <- IHchunks.
    + split; [done|]. cbn [length]. lia.
Qed.

Lemma chunks_of_spec (lines : list str) (prefix : str) :
  chunks_of lines (split_indices_of lines prefix)
  = (spec_split (λ line, startswith line prefix) lines).2.
Proof.
  rewrite chunks_of_bounds.
  apply (chunks_from_spec prefix lines []).
Qed.

Lemma first_split_index (lines : list str) (prefix : str) :
  hd (length lines) (split_indices_of lines prefix)
  = length (spec_split (λ line, startswith line prefix) lines).1.
Proof. apply (chunks_from_spec prefix lines []). Qed.

(** ** Running [step_2] *)

Lemma step_2_loop_run (outdir_path : str) (lines : list str)
    (split_indices : list nat) (entries : list (nat * nat))
    (acc : list str) (st : state) :
  let chunk_lines_of entry :=
    slice lines entry.2 (end_index_of lines split_indices entry.1) in
  Forall (λ entry, chunk_lines_of entry ≠ []) entries →
  for_fold (step_2_body outdir_path lines split_indices) acc entries st
  = (Ok (acc ++ (chunk_path outdir_path <$> (chunk_lines_of <$> entries))),
     State (foldl (write_chunk outdir_path) (files st)
              (chunk_lines_of <$> entries))
           (console st)).
Proof.
  intros chunk_lines_of Hchunks. revert acc st.
  induction Hchunks as [|entry entries Hentry _ IH]; intros acc st.
  - cbn. rewrite app_nil_r. by destruct st.
  - cbn [for_fold fmap list_fmap foldl]. unfold bind at 1.
    unfold step_2_body at 1. fold (chunk_lines_of entry).
    destruct (chunk_lines_of entry) as [|heading body] eqn:Hchunk; [done|].
    cbn [first_item]. unfold bind, ret, write. cbn [files console].
    rewrite IH. cbn [files console]. by rewrite <- app_assoc.
Qed.

Lemma chunks_nonempty (lines : list str) (prefix : str) :
  Forall (λ chunk, chunk ≠ [])
    (chunks_of lines (split_indices_of lines prefix)).
Proof.
  rewrite chunks_of_spec.
  eapply Forall_impl; [apply spec_split_chunks|].
  by intros chunk (heading & body & -> & _).
Qed.

(** [step_2] succeeds on every readable document: it returns the chunk
    paths in order and has written the chunks one after the other. *)
Lemma step_2_run (outfile_path outdir_path : str) (heading_lvl : Z)
    (st : state) (content : str) :
  files st !! outfile_path = Some content →
  let lines := splitlines content in
  let chunks :=
    chunks_of lines (split_indices_of lines (heading_prefix heading_lvl)) in
  step_2 outfile_path outdir_path heading_lvl st
  = (Ok (chunk_path outdir_path <$> chunks),
     State (foldl (write_chunk outdir_path) (files st) chunks)
           (console st ++ [Step2Splitting heading_lvl;
                           step_2_report heading_lvl (length chunks)])).
Proof.
  intros Hread lines chunks.
  unfold step_2, bind at 1 2, print at 1, read. cbn [files console].
  rewrite Hread. fold lines.
  pose proof (chunks_nonempty lines (heading_prefix heading_lvl)) as Hne.
  fold chunks in Hne. unfold chunks, chunks_of in *.
  destruct (split_indices_of lines (heading_prefix heading_lvl))
    as [|start starts] eqn:Hidx.
  - cbn. by rewrite <- app_assoc.
  - unfold bind at 1. rewrite step_2_loop_run.
    + cbn [files console app]. unfold bind, print, ret. cbn [files console].
      rewrite !length_fmap. cbn [length step_2_report].
      by rewrite <- app_assoc.
    + exact (proj1 (Forall_fmap _ (λ chunk : list (list N), chunk ≠ []) _) Hne).
Qed.

(** ** The Splitter *)

Lemma startswith_marker_run (line : str) (n : nat) :
  startswith line (replicate n HASH ++ [SPACE]) = true →
  marker_run line = n.
Proof.
  revert line. induction n as [|n IH]; intros [|c line]; simpl; try done.
  - rewrite andb_true_iff, N.eqb_eq. by intros [-> _].
  - rewrite andb_true_iff, N.eqb_eq. intros [-> Hrest]. simpl.
    by rewrite (IH line).
Qed.

(** C2: for every heading level L that is not negative, a line is a split
    boundary exactly when it starts with L heading markers followed by a
    space; a line with a longer run of markers is never one, and every chunk
    starts with a line whose marker run is exactly L. *)
Theorem deeper_heading_is_no_boundary (lines : list str) (heading_lvl : Z)
    (idx : nat) (line : str) :
  (0 ≤ heading_lvl)%Z →
  lines !! idx = Some line →
  let split_indices := split_indices_of lines (heading_prefix heading_lvl) in
  (idx ∈ split_indices
   ↔ startswith line (replicate (Z.to_nat heading_lvl) HASH ++ [SPACE]) = true)
  ∧ ((heading_lvl < Z.of_nat (marker_run line))%Z → idx ∉ split_indices)
  ∧ Forall (λ chunk, ∃ heading body,
              chunk = heading :: body
              ∧ Z.of_nat (marker_run heading) = heading_lvl)
      (chunks_of lines split_indices).
Proof.
  intros Hlvl Hline split_indices.
  assert (idx ∈ split_indices
          ↔ startswith line (heading_prefix heading_lvl) = true) as Hiff.
  { unfold split_indices, split_indices_of, enumerate.
    fold (split_indices_from 0 lines (heading_prefix heading_lvl)).
    rewrite split_indices_from_elem, Nat.sub_0_r, Hline. split.
    - by intros [_ (? & [= <-] & ?)].
    - intros ?. split; [lia | by exists line]. }
  split_and!.
  - done.
  - intros Hdeep Hin. apply Hiff, startswith_marker_run in Hin. lia.
  - unfold split_indices. rewrite chunks_of_spec.
    eapply Forall_impl; [apply spec_split_chunks|].
    intros chunk (heading & body & -> & Hheading & _).
    exists heading, body. split; [done|].
    apply startswith_marker_run in Hheading. lia.
Qed.

Lemma deeper_heading_is_no_boundary_witness :
  let lines := [py "# Part"; py "## Foo"; py "text"] in
  let split_indices := split_indices_of lines (heading_prefix 1) in
  (1%nat ∈ split_indices
   ↔ startswith (py "## Foo") (replicate (Z.to_nat 1) HASH ++ [SPACE]) = true)
  ∧ ((1 < Z.of_nat (marker_run (py "## Foo")))%Z → 1%nat ∉ split_indices)
  ∧ Forall (λ chunk, ∃ heading body,
              chunk = heading :: body
              ∧ Z.of_nat (marker_run heading) = 1%Z)
      (chunks_of lines split_indices).
Proof.
  apply (deeper_heading_is_no_boundary
           [py "# Part"; py "## Foo"; py "text"] 1 1 (py "## Foo")).
  - lia.
  - reflexivity.
Defined.

(** C3: for every document with at least one depth-L heading line,
    [step_2] writes the chunks one after the other, and the chunks partition
    the lines from the first heading line to the end of the document: the
    lines are the lines before the first heading line followed by the
    chunks in order, each chunk is a heading line followed by lines that
    are not heading lines, and no line before the first heading line is
    one. *)
Theorem step_2_chunks_partition (outfile_path outdir_path : str)
    (heading_lvl : Z) (st : state) (document : str) (first : nat) :
  files st !! outfile_path = Some document →
  let lines := splitlines document in
  let is_heading := λ line, startswith line (heading_prefix heading_lvl) in
  let split_indices := split_indices_of lines (heading_prefix heading_lvl) in
  let chunks := chunks_of lines split_indices in
  head split_indices = Some first →
  step_2 outfile_path outdir_path heading_lvl st
  = (Ok (chunk_path outdir_path <$> chunks),
     State (foldl (write_chunk outdir_path) (files st) chunks)
           (console st ++ [Step2Splitting heading_lvl;
                           Step2Done (length chunks)]))
  ∧ lines = take first lines ++ concat chunks
  ∧ Forall (λ line, is_heading line = false) (take first lines)
  ∧ Forall (well_formed_chunk is_heading) chunks.
Proof.
  intros Hread lines is_heading split_indices chunks Hfirst.
  pose proof (step_2_run outfile_path outdir_path heading_lvl st document
                Hread) as Hrun.
  cbn zeta in Hrun. fold lines split_indices chunks in Hrun.
  pose proof (first_split_index lines (heading_prefix heading_lvl)) as Hhd.
  fold split_indices is_heading in Hhd.
  pose proof (spec_split_app is_heading lines) as Happ.
  pose proof (spec_split_preamble is_heading lines) as Hpre.
  pose proof (spec_split_chunks is_heading lines) as Hchunks.
  assert (chunks = (spec_split is_heading lines).2) as Hspec
    by apply chunks_of_spec.
  rewrite <- Hspec in Happ, Hchunks.
  assert (first = length (spec_split is_heading lines).1) as ->.
  { destruct split_indices; simplify_eq/=. done. }
  assert (take (length (spec_split is_heading lines).1) lines
          = (spec_split is_heading lines).1) as Htake.
  { transitivity (take (length (spec_split is_heading lines).1)
                    ((spec_split is_heading lines).1 ++ concat chunks));
      [by rewrite <- Happ | apply take_app_length]. }
  rewrite Htake. split_and!; [|done..].
  rewrite Hrun. do 4 f_equal.
  assert (length chunks = length split_indices) as ->.
  { unfold chunks, chunks_of, enumerate.
    by rewrite length_fmap, enumerate_from_length. }
  by destruct split_indices.
Qed.

Lemma step_2_chunks_partition_witness :
  let document := py "preface" ++ [LF] ++ example_document in
  let st := State {[ py "book.md" := document ]} [] in
  let lines := splitlines document in
  let is_heading := λ line, startswith line (heading_prefix 1) in
  let chunks := chunks_of lines (split_indices_of lines (heading_prefix 1)) in
  step_2 (py "book.md") (py "notes") 1 st
  = (Ok (chunk_path (py "notes") <$> chunks),
     State (foldl (write_chunk (py "notes")) (files st) chunks)
           (console st ++ [Step2Splitting 1; Step2Done (length chunks)]))
  ∧ lines = take 1 lines ++ concat chunks
  ∧ Forall (λ line, is_heading line = false) (take 1 lines)
  ∧ Forall (well_formed_chunk is_heading) chunks.
Proof.
  apply (step_2_chunks_partition (py "book.md") (py "notes") 1
           (State {[ py "book.md" := py "preface" ++ [LF] ++ example_document ]}
              [])
           (py "preface" ++ [LF] ++ example_document) 1).
  - reflexivity.
  - reflexivity.
Defined.

(** ** Lines and trailing newlines *)

Lemma splitlines_no_linebreak_le (n : nat) (s : str) :
  (length s ≤ n)%nat →
  Forall (Forall (λ c, islinebreak c = false)) (splitlines s).
Proof.
  revert s. induction n as [|n IH]; intros [|c s] Hlen; simpl in *;
    try (by constructor); try lia.
  destruct (islinebreak c) eqn:Hc.
  - destruct s as [|d s]; [by repeat constructor|].
    destruct ((c =? CR) && (d =? LF)); constructor; try done.
    + apply IH. simpl in *. lia.
    + apply IH. simpl in *. lia.
  - assert (Forall (Forall (λ c, islinebreak c = false)) (splitlines s))
      as Hrest by (apply IH; lia).
    destruct (splitlines s) as [|line lines]; [by repeat constructor|].
    inversion Hrest; subst. by repeat constructor.
Qed.

Lemma splitlines_no_linebreak (s : str) :
  Forall (Forall (λ c, islinebreak c = false)) (splitlines s).
Proof. by apply (splitlines_no_linebreak_le (length s)). Qed.

Lemma join_snoc (sep : str) (l : list str) (x : str) :
  l ≠ [] → join sep (l ++ [x]) = join sep l ++ sep ++ x.
Proof.
  induction l as [|y l IH]; [done|]. intros _.
  destruct l as [|z l]; [done|].
  change (join sep ((y :: z :: l) ++ [x]))
    with (y ++ sep ++ join sep ((z :: l) ++ [x])).
  rewrite IH by done.
  change (join sep (y :: z :: l)) with (y ++ sep ++ join sep (z :: l)).
  by rewrite <- !app_assoc.
Qed.

Lemma endswith_snoc (s : str) (c d : char) :
  endswith (s ++ [c]) [d] = (c =? d).
Proof.
  unfold endswith. rewrite rev_app_distr. simpl. by rewrite andb_true_r.
Qed.

Lemma endswith_nil (suffix : str) :
  suffix ≠ [] → endswith [] suffix = false.
Proof.
  intros Hne. unfold endswith. simpl.
  destruct (rev suffix) eqn:Hrev; [|done].
  apply (f_equal (@rev N)) in Hrev. by rewrite rev_involutive in Hrev.
Qed.

(** A text ends in exactly one newline when it is a text that does not end
    in a newline, followed by one. *)
Lemma one_trailing_newline_snoc (s : str) :
  one_trailing_newline (s ++ [LF]) = negb (endswith s [LF]).
Proof.
  unfold one_trailing_newline. rewrite endswith_snoc. simpl.
  f_equal. unfold endswith. rewrite rev_app_distr. simpl.
  destruct (rev s); simpl; [done|]. by rewrite andb_true_r.
Qed.

(** The joined lines of a chunk end in a newline exactly when the last
    line of the chunk is empty. *)
Lemma join_endswith_newline (heading : str) (body : list str) :
  heading ≠ [] →
  Forall (Forall (λ c, islinebreak c = false)) (heading :: body) →
  endswith (join [LF] (heading :: body)) [LF] = true
  ↔ last (heading :: body) = Some [].
Proof.
  intros Hheading Hlines.
  assert (∀ line, Forall (λ c, islinebreak c = false) line →
            endswith line [LF] = true ↔ False) as Hline.
  { intros line Hno. split; [|done]. intros [front ->]%endswith_app.
    apply Forall_app in Hno as [_ Hno]. by inversion Hno. }
  destruct (heading :: body) as [|x front _] eqn:Hchunk using rev_ind;
    [done|].
  rewrite last_snoc. apply Forall_app in Hlines as [Hfront Hx].
  inversion Hx as [|? ? Hxno _]; subst.
  destruct front as [|y front].
  - injection Hchunk as -> _. simpl. rewrite Hline by done.
    split; [done | by intros [= ->]].
  - rewrite join_snoc by done. rewrite !app_assoc.
    destruct x as [|c x _] using rev_ind.
    + rewrite app_nil_r, endswith_snoc. by rewrite N.eqb_refl.
    + rewrite app_assoc, endswith_snoc.
      apply Forall_app in Hxno as [_ Hc]. inversion Hc as [|? ? Hcno _]; subst.
      split.
      * intros ->%N.eqb_eq. done.
      * intros [=]. by destruct x.
Qed.

Lemma foldl_write_chunk_last (outdir_path : str) (fs : gmap (list N) (list N))
    (before after : list (list str)) (chunk : list str) :
  Forall (λ later, chunk_path outdir_path later ≠ chunk_path outdir_path chunk)
    after →
  foldl (write_chunk outdir_path) fs (before ++ chunk :: after)
    !! chunk_path outdir_path chunk
  = Some (chunk_content chunk).
Proof.
  intros Hafter. rewrite foldl_app. cbn [foldl].
  generalize (foldl (write_chunk outdir_path) fs before). intros fs'.
  assert (write_chunk outdir_path fs' chunk !! chunk_path outdir_path chunk
          = Some (chunk_content chunk)) as Hnow
    by apply lookup_insert_eq.
  revert Hnow. generalize (write_chunk outdir_path fs' chunk).
  induction Hafter as [|later after Hne _ IH]; intros fs'' Hnow; [done|].
  cbn [foldl]. apply IH. unfold write_chunk at 1.
  by rewrite lookup_insert_ne.
Qed.

Lemma heading_prefix_nonempty (heading_lvl : Z) (line : str) :
  startswith line (heading_prefix heading_lvl) = true → line ≠ [].
Proof.
  intros [rest ->]%startswith_app. unfold heading_prefix.
  by destruct (times HASH heading_lvl).
Qed.

(** C7, as the code has it: the content written for a chunk is its lines
    joined by newlines and followed by one more newline; it is what the
    chunk's file holds when the chunk has been written, and at the end of
    [step_2] unless a later chunk has the same path.  It ends in exactly
    one newline exactly when the last line of the chunk is not empty. *)
Theorem step_2_chunk_content (outfile_path outdir_path : str)
    (heading_lvl : Z) (st : state) (document : str)
    (before after : list (list str)) (chunk_lines : list str) :
  files st !! outfile_path = Some document →
  let lines := splitlines document in
  chunks_of lines (split_indices_of lines (heading_prefix heading_lvl))
  = before ++ chunk_lines :: after →
  let written := join [LF] chunk_lines ++ [LF] in
  foldl (write_chunk outdir_path) (files st) (before ++ [chunk_lines])
    !! chunk_path outdir_path chunk_lines = Some written
  ∧ (∃ st',
       step_2 outfile_path outdir_path heading_lvl st
       = (Ok (chunk_path outdir_path <$> before ++ chunk_lines :: after), st')
       ∧ (Forall (λ later, chunk_path outdir_path later
                             ≠ chunk_path outdir_path chunk_lines) after →
          files st' !! chunk_path outdir_path chunk_lines = Some written))
  ∧ (one_trailing_newline written = true ↔ last chunk_lines ≠ Some []).
Proof.
  intros Hread lines Hchunks written. split_and!.
  - by apply foldl_write_chunk_last.
  - eexists. split.
    + rewrite <- Hchunks. by apply step_2_run.
    + intros Hafter. cbn [files]. fold lines. rewrite Hchunks.
      by apply foldl_write_chunk_last.
  - set (is_heading := λ line, startswith line (heading_prefix heading_lvl)).
    pose proof (spec_split_chunks is_heading lines) as Hwf.
    pose proof (spec_split_app is_heading lines) as Happ.
    pose proof (splitlines_no_linebreak document) as Hno. fold lines in Hno.
    unfold is_heading in Hwf, Happ.
    rewrite <- chunks_of_spec, Hchunks in Hwf, Happ.
    apply Forall_app in Hwf as [_ Hwf].
    inversion Hwf as [|? ? (heading & body & -> & Hheading & _) _]; subst.
    rewrite Happ in Hno. apply Forall_app in Hno as [_ Hno].
    rewrite concat_app in Hno. apply Forall_app in Hno as [_ Hno].
    cbn [concat] in Hno. apply Forall_app in Hno as [Hno _].
    unfold written. rewrite one_trailing_newline_snoc, negb_true_iff.
    apply heading_prefix_nonempty in Hheading.
    pose proof (join_endswith_newline heading body Hheading Hno) as Hiff.
    destruct (endswith (join [LF] (heading :: body)) [LF]).
    + split; [done|]. intros Hlast. by destruct Hlast, Hiff as [-> _].
    + split; [|done]. intros _ Hlast. by destruct Hiff as [_ Hiff]; discriminate Hiff.
Qed.

Lemma step_2_chunk_content_witness :
  let written := join [LF] [py "# A"; py "foo"] ++ [LF] in
  foldl (write_chunk (py "notes")) (files example_state)
      ([] ++ [[py "# A"; py "foo"]])
    !! chunk_path (py "notes") [py "# A"; py "foo"] = Some written
  ∧ (∃ st',
       step_2 (py "book.md") (py "notes") 1 example_state
       = (Ok (chunk_path (py "notes")
                <$> [] ++ [py "# A"; py "foo"] :: [[py "# B"; py "bar"]]), st')
       ∧ (Forall (λ later, chunk_path (py "notes") later
                             ≠ chunk_path (py "notes") [py "# A"; py "foo"])
            [[py "# B"; py "bar"]] →
          files st' !! chunk_path (py "notes") [py "# A"; py "foo"]
          = Some written))
  ∧ (one_trailing_newline written = true
     ↔ last [py "# A"; py "foo"] ≠ Some []).
Proof.
  apply (step_2_chunk_content (py "book.md") (py "notes") 1 example_state
           example_document [] [[py "# B"; py "bar"]] [py "# A"; py "foo"]).
  - reflexivity.
  - reflexivity.
Defined.

(** C7 as stated fails: a chunk whose last line is blank, here the blank
    line that separates a section from the next heading, is written with
    two newlines at its end. *)
Lemma step_2_blank_last_line_counterexample :
  let document :=
    py "# A" ++ [LF] ++ py "foo" ++ [LF; LF] ++ py "# B" ++ [LF] ++ py "bar" in
  let st := State {[ py "book.md" := document ]} [] in
  let run := step_2 (py "book.md") (py "notes") 1 st in
  run.1 = Ok [py "notes/A.md"; py "notes/B.md"]
  ∧ files run.2 !! py "notes/A.md"
    = Some (py "# A" ++ [LF] ++ py "foo" ++ [LF; LF])
  ∧ one_trailing_newline (py "# A" ++ [LF] ++ py "foo" ++ [LF; LF]) = false.
Proof. split_and!; reflexivity. Qed.

(** ** Sanitization *)

Lemma sanitize_legal (s : str) :
  Forall (λ c, illegal c = false) (sanitize s).
Proof.
  apply List.Forall_forall. intros c [_ Hc]%filter_In.
  by apply negb_true_iff.
Qed.

(** C9: removing the characters that are illegal in file names is
    idempotent, and what it returns contains none of backslash, slash, star,
    question mark, colon, double quote, less-than, greater-than and
    vertical bar. *)
Theorem sanitize_idempotent (s : str) :
  sanitize (sanitize s) = sanitize s
  ∧ ∀ c, c ∈ [92; 47; 42; 63; 58; 34; 60; 62; 124] → c ∉ sanitize s.
Proof.
  split.
  - induction s as [|c s IH]; [done|]. unfold sanitize in *. simpl.
    destruct (illegal c) eqn:Hc; simpl; [done|]. by rewrite Hc, IH.
  - intros c Hc Hin.
    pose proof (sanitize_legal s) as Hlegal.
    rewrite List.Forall_forall in Hlegal.
    apply list_elem_of_In, Hlegal in Hin.
    repeat (apply elem_of_cons in Hc as [-> | Hc]; [discriminate Hin|]).
    by apply elem_of_nil in Hc.
Qed.

(** ** No heading: the pipeline stops after the Splitter *)

Section EarlyExit.

Variable pandoc : str → str → str → gmap (list N) (list N) → gmap (list N) (list N).

Lemma main_until_step_2 (a : args) (st : state) :
  arg_step_1 a = false →
  main pandoc a st
  = (let* note_files :=
       step_2 (arg_outfile a) (arg_outdir a) (arg_heading_level a) in
     match note_files with
     | [] => print NoNotesCreated
     | _ :: _ =>
         step_3 note_files (arg_metadata a) >>
         step_4 note_files (arg_resources a) >>
         print PipelineComplete
     end) (converted pandoc a st).
Proof.
  intros Hflag. unfold main, converted. rewrite Hflag.
  unfold bind at 1, print at 1. unfold bind at 1.
  destruct (arg_no_step_1 a); cbn [negb]; [done|].
  unfold step_1, bind, print. cbn [files console].
  by rewrite <- !app_assoc.
Qed.

(** C8: when no line of the document starts with the depth-L prefix,
    [step_2] returns the empty list and writes nothing, and [main]
    returns normally right after it: the files are those the conversion
    left, and the console ends with the messages of [step_2] and the
    notice of the early exit, with nothing of [step_3] or [step_4]. *)
Theorem main_no_heading_stops (a : args) (st : state) (document : str) :
  arg_step_1 a = false →
  files (converted pandoc a st) !! arg_outfile a = Some document →
  Forall (λ line,
            startswith line
              (replicate (Z.to_nat (arg_heading_level a)) HASH ++ [SPACE])
            = false)
    (splitlines document) →
  step_2 (arg_outfile a) (arg_outdir a) (arg_heading_level a)
    (converted pandoc a st)
  = (Ok [],
     State (files (converted pandoc a st))
           (console (converted pandoc a st)
            ++ [Step2Splitting (arg_heading_level a);
                Step2NoHeadings (arg_heading_level a)]))
  ∧ main pandoc a st
    = (Ok (),
       State (files (converted pandoc a st))
             (console (converted pandoc a st)
              ++ [Step2Splitting (arg_heading_level a);
                  Step2NoHeadings (arg_heading_level a);
                  NoNotesCreated])).
Proof.
  intros Hflag Hread Hnone.
  assert (chunks_of (splitlines document)
            (split_indices_of (splitlines document)
               (heading_prefix (arg_heading_level a))) = []) as Hchunks.
  { rewrite chunks_of_spec. apply spec_split_no_heading.
    induction Hnone as [|line lines Hline _ IH]; [done|].
    simpl. unfold heading_prefix, times. by rewrite Hline. }
  pose proof (step_2_run (arg_outfile a) (arg_outdir a)
                (arg_heading_level a) _ _ Hread) as Hrun.
  cbn zeta in Hrun. rewrite Hchunks in Hrun.
  cbn [fmap list_fmap foldl length step_2_report] in Hrun.
  split; [done|].
  rewrite main_until_step_2 by done. unfold bind at 1. rewrite Hrun.
  unfold print. cbn [files console]. by rewrite <- app_assoc.
Qed.

End EarlyExit.

Lemma main_no_heading_stops_witness :
  let pandoc := λ _ _ _ fs, fs in
  let a := Args (py "book.epub") (py "book.md") (py "attachments")
             (py "missing.yml") (py "missing.md") (py "notes") 1 false true in
  let st := State {[ py "book.md" := py "## Only deeper" ++ [LF] ++ py "text" ]}
              [] in
  step_2 (arg_outfile a) (arg_outdir a) (arg_heading_level a)
    (converted pandoc a st)
  = (Ok [],
     State (files (converted pandoc a st))
           (console (converted pandoc a st)
            ++ [Step2Splitting (arg_heading_level a);
                Step2NoHeadings (arg_heading_level a)]))
  ∧ main pandoc a st
    = (Ok (),
       State (files (converted pandoc a st))
             (console (converted pandoc a st)
              ++ [Step2Splitting (arg_heading_level a);
                  Step2NoHeadings (arg_heading_level a);
                  NoNotesCreated])).
Proof.
  apply (main_no_heading_stops (λ _ _ _ fs, fs)
           (Args (py "book.epub") (py "book.md") (py "attachments")
              (py "missing.yml") (py "missing.md") (py "notes") 1 false true)
           (State {[ py "book.md" := py "## Only deeper" ++ [LF] ++ py "text" ]}
              [])
           (py "## Only deeper" ++ [LF] ++ py "text")).
  - reflexivity.
  - reflexivity.
  - repeat constructor.
Defined.

(** ** Substitution of the placeholder *)

Lemma replace_cons (o : char) (old new : str) (c : char) (s : str) :
  replace (o :: old) new (c :: s)
  = if startswith (c :: s) (o :: old)
    then new ++ replace (o :: old) new (drop (length (o :: old)) (c :: s))
    else c :: replace (o :: old) new s.
Proof.
  rewrite replace_equation_3.
  destruct (startswith (c :: s) (o :: old)); by simp replace.
Qed.

Lemma startswith_app_l (s rest prefix : str) :
  startswith s prefix = true → startswith (s ++ rest) prefix = true.
Proof.
  intros [tail ->]%startswith_app. rewrite <- app_assoc.
  apply startswith_refl_app.
Qed.

Lemma join_cons (sep x : str) (l : list str) :
  l ≠ [] → join sep (x :: l) = x ++ sep ++ join sep l.
Proof. by destruct l. Qed.

Lemma join_cons_head (sep : str) (c : char) (x : str) (l : list str) :
  join sep ((c :: x) :: l) = c :: join sep (x :: l).
Proof. by destruct l. Qed.

Lemma join_head_app (sep x : str) (l : list str) :
  ∃ rest, join sep (x :: l) = x ++ rest.
Proof.
  destruct l as [|y l]; [exists []; simpl; by rewrite app_nil_r|].
  by exists (sep ++ join sep (y :: l)).
Qed.

(** [replace] cuts the text at the occurrences of [old] into segments that
    are free of [old], and joins the segments with [new] instead. *)
Lemma replace_segments_le (n : nat) (o : char) (old s : str) :
  (length s ≤ n)%nat →
  ∃ segments,
    segments ≠ []
    ∧ s = join (o :: old) segments
    ∧ Forall (λ segment, occurs (o :: old) segment = false) segments
    ∧ ∀ new, replace (o :: old) new s = join new segments.
Proof.
  revert s. induction n as [|n IH]; intros [|c s] Hlen; simpl in Hlen;
    try lia.
  1,2: exists [[]]; split_and!; [done|done|by repeat constructor|];
       intros new; by simp replace.
  destruct (startswith (c :: s) (o :: old)) eqn:Hstart.
  - destruct (IH (drop (length (o :: old)) (c :: s))) as
      (segments & Hne & Hjoin & Hfree & Hreplace).
    { rewrite length_drop. simpl. lia. }
    exists ([] :: segments). split_and!.
    + done.
    + rewrite join_cons by done. cbn [app]. rewrite <- Hjoin.
      apply startswith_app in Hstart as [rest Hrest]. rewrite Hrest at 1.
      f_equal. rewrite Hrest. by rewrite drop_app_length.
    + by constructor.
    + intros new. rewrite replace_cons, Hstart, Hreplace.
      by rewrite join_cons.
  - destruct (IH s) as (segments & Hne & Hjoin & Hfree & Hreplace); [lia|].
    destruct segments as [|segment segments]; [done|].
    exists ((c :: segment) :: segments). split_and!.
    + done.
    + by rewrite join_cons_head, <- Hjoin.
    + apply Forall_cons in Hfree as [Hsegment Hrest].
      constructor; [|done]. cbn [occurs]. rewrite Hsegment, orb_false_r.
      destruct (startswith (c :: segment) (o :: old)) eqn:Hseg; [|done].
      destruct (join_head_app (o :: old) segment segments) as [rest Hhead].
      rewrite Hjoin, Hhead in Hstart.
      by rewrite (startswith_app_l (c :: segment) rest) in Hstart.
    + intros new. rewrite replace_cons, Hstart, Hreplace.
      by rewrite join_cons_head.
Qed.

Lemma replace_segments (old s : str) :
  old ≠ [] →
  ∃ segments,
    segments ≠ []
    ∧ s = join old segments
    ∧ Forall (λ segment, occurs old segment = false) segments
    ∧ ∀ new, replace old new s = join new segments.
Proof.
  destruct old as [|o old]; [done|]. intros _.
  by apply (replace_segments_le (length s)).
Qed.

(** ** Running [step_3] and [step_4] *)

Lemma occurrences_cons (x y : str) (l : list str) :
  occurrences x (y :: l)
  = if decide (y = x) then S (occurrences x l) else occurrences x l.
Proof. unfold occurrences. rewrite filter_cons. by case_decide. Qed.

Lemma positions_from_cons (n : nat) (x y : str) (l : list str) :
  positions_from n x (y :: l)
  = if decide (y = x) then n :: positions_from (S n) x l
    else positions_from (S n) x l.
Proof.
  unfold positions_from. cbn [enumerate_from]. rewrite filter_cons.
  cbn [snd]. by case_decide.
Qed.

Lemma positions_from_length (n : nat) (x : str) (l : list str) :
  length (positions_from n x l) = occurrences x l.
Proof.
  revert n. induction l as [|y l IH]; intros n; [done|].
  rewrite positions_from_cons, occurrences_cons.
  case_decide; simpl; by rewrite IH.
Qed.

Lemma step_3_loop_run (yaml_template : str) (note_files : list str)
    (st : state) :
  (∀ p, p ∈ note_files → is_md p = true → is_Some (files st !! p)) →
  ∃ fs',
    for_each (step_3_body yaml_template) note_files st
    = (Ok (), State fs' (console st))
    ∧ ∀ p, fs' !! p
           = Nat.iter (if is_md p then occurrences p note_files else 0)
               (prepend_metadata yaml_template) <$> files st !! p.
Proof.
  revert st. induction note_files as [|q rest IH]; intros st Hreadable.
  - exists (files st). split; [by destruct st|].
    intros p. destruct (is_md p); by destruct (files st !! p).
  - cbn [for_each]. unfold bind at 1, step_3_body at 1. fold (is_md q).
    destruct (is_md q) eqn:Hq.
    + destruct (Hreadable q) as [old Hold]; [by left|done|].
      unfold bind, read, write. rewrite Hold. cbn [files console].
      destruct (IH (State (<[q := yaml_template ++ blank_line ++ old]>
                             (files st)) (console st)))
        as (fs' & Hrun & Hfs').
      { intros p Hp Hmd. cbn [files].
        apply lookup_insert_is_Some'. right. apply Hreadable; [by right|done]. }
      exists fs'. split; [done|]. intros p. rewrite Hfs'. cbn [files].
      rewrite occurrences_cons.
      destruct (decide (q = p)) as [<-|Hne].
      * rewrite lookup_insert_eq, Hold, Hq. cbn [fmap option_fmap option_map].
        by rewrite Nat.iter_succ_r.
      * by rewrite lookup_insert_ne.
    + unfold ret. destruct (IH st) as (fs' & Hrun & Hfs').
      { intros p Hp Hmd. apply Hreadable; [by right|done]. }
      exists fs'. split; [done|]. intros p. rewrite Hfs'.
      rewrite occurrences_cons.
      destruct (decide (q = p)) as [<-|Hne]; [by rewrite Hq | done].
Qed.

Lemma step_3_run (note_files : list str) (metadata_path : str) (st : state)
    (template : str) :
  files st !! metadata_path = Some template →
  (∀ p, p ∈ note_files → is_md p = true → is_Some (files st !! p)) →
  ∃ fs',
    step_3 note_files metadata_path st
    = (Ok (), State fs' (console st ++ [Step3Prepending; Step3Done]))
    ∧ ∀ p, fs' !! p
           = Nat.iter (if is_md p then occurrences p note_files else 0)
               (prepend_metadata (strip template)) <$> files st !! p.
Proof.
  intros Htemplate Hreadable.
  destruct (step_3_loop_run (strip template) note_files
              (State (files st) (console st ++ [Step3Prepending])))
    as (fs' & Hrun & Hfs'); [done|].
  exists fs'. split; [|done].
  unfold step_3, bind at 1 2, print at 1, read. cbn [files console].
  rewrite Htemplate. unfold bind at 1. rewrite Hrun.
  unfold print. cbn [files console]. by rewrite <- app_assoc.
Qed.

Lemma step_4_loop_run (resources_base : str) (note_files rest : list str)
    (n : nat) (st : state) :
  (∀ p, p ∈ rest → is_Some (files st !! p)) →
  ∃ fs',
    for_each (step_4_body resources_base note_files) (enumerate_from n rest) st
    = (Ok (), State fs' (console st))
    ∧ ∀ p, fs' !! p
           = (λ old, old ++ concat (resources_block resources_base note_files
                                      <$> positions_from n p rest))
             <$> files st !! p.
Proof.
  revert n st. induction rest as [|q rest IH]; intros n st Hreadable.
  - exists (files st). split; [by destruct st|].
    intros p. destruct (files st !! p); simpl; [|done].
    by rewrite app_nil_r.
  - cbn [for_each enumerate_from]. unfold bind at 1, step_4_body at 1.
    cbn [fst snd].
    destruct (Hreadable q) as [old Hold]; [by left|].
    unfold bind at 1, read, write. rewrite Hold. cbn [files console].
    fold (resources_block resources_base note_files n).
    destruct (IH (S n)
                (State (<[q := old ++ resources_block resources_base
                                        note_files n]> (files st))
                       (console st)))
      as (fs' & Hrun & Hfs').
    { intros p Hp. cbn [files].
      apply lookup_insert_is_Some'. right. apply Hreadable. by right. }
    exists fs'. split; [done|]. intros p. rewrite Hfs'. cbn [files].
    rewrite positions_from_cons.
    destruct (decide (q = p)) as [<-|Hne].
    + rewrite lookup_insert_eq, Hold. cbn. by rewrite <- app_assoc.
    + by rewrite lookup_insert_ne.
Qed.

Lemma step_4_run (note_files : list str) (resources_path : str) (st : state)
    (template : str) :
  files st !! resources_path = Some template →
  (∀ p, p ∈ note_files → is_Some (files st !! p)) →
  ∃ fs',
    step_4 note_files resources_path st
    = (Ok (), State fs' (console st ++ [Step4Appending; Step4Done;
                                         FinalStepReview]))
    ∧ ∀ p, fs' !! p
           = (λ old, old ++ concat (resources_block (strip template) note_files
                                      <$> positions p note_files))
             <$> files st !! p.
Proof.
  intros Htemplate Hreadable.
  destruct (step_4_loop_run (strip template) note_files note_files 0
              (State (files st) (console st ++ [Step4Appending])))
    as (fs' & Hrun & Hfs'); [done|].
  exists fs'. split; [|done].
  unfold step_4, bind at 1 2, print at 1, read. cbn [files console].
  rewrite Htemplate. unfold bind at 1, enumerate. rewrite Hrun.
  unfold bind, print. cbn [files console]. by rewrite <- !app_assoc.
Qed.

(** ** The Metadata Injector *)

(** Every path of an explicit list is a file of an explicit store. *)
Ltac listed_files_readable :=
  let p := fresh "p" in
  let Hp := fresh "Hp" in
  intros p Hp;
  repeat (apply elem_of_cons in Hp as [-> | Hp]; [by eexists|]);
  by apply elem_of_nil in Hp.

(** C4, as the code has it: [step_3] returns when the template and the
    listed notes that end in [.md] are readable; a listed note whose path
    ends in [.md], in any letter case, and that is listed once then holds
    the template stripped of the white space around it, followed by one
    blank line and by the previous content of the note; a listed path with
    another ending keeps its content. *)
Theorem step_3_prepends (note_files : list str) (metadata_path : str)
    (st : state) (template : str) :
  files st !! metadata_path = Some template →
  (∀ p, p ∈ note_files → endswith (lower p) (py ".md") = true →
        is_Some (files st !! p)) →
  ∃ st',
    step_3 note_files metadata_path st = (Ok (), st')
    ∧ ∀ p old,
        p ∈ note_files →
        files st !! p = Some old →
        (endswith (lower p) (py ".md") = true →
         occurrences p note_files = 1%nat →
         files st' !! p = Some (strip template ++ [LF; LF] ++ old))
        ∧ (endswith (lower p) (py ".md") = false →
           files st' !! p = Some old).
Proof.
  intros Htemplate Hreadable.
  destruct (step_3_run note_files metadata_path st template Htemplate)
    as (fs' & Hrun & Hfs'); [done|].
  eexists. split; [done|]. intros p old Hp Hold. cbn [files].
  rewrite Hfs', Hold. unfold is_md, md_ext. split.
  - by intros -> ->.
  - by intros ->.
Qed.

Lemma step_3_prepends_witness :
  ∃ st',
    step_3 [py "notes/A.md"; py "notes/B.txt"] (py "templates/metadata.yml")
      (State {[ py "templates/metadata.yml" := example_metadata;
                py "notes/A.md" := py "# A" ++ [LF];
                py "notes/B.txt" := py "# B" ++ [LF] ]} [])
    = (Ok (), st')
    ∧ files st' !! py "notes/A.md"
      = Some (strip example_metadata ++ [LF; LF] ++ py "# A" ++ [LF])
    ∧ files st' !! py "notes/B.txt" = Some (py "# B" ++ [LF]).
Proof.
  destruct (step_3_prepends [py "notes/A.md"; py "notes/B.txt"]
              (py "templates/metadata.yml")
              (State {[ py "templates/metadata.yml" := example_metadata;
                        py "notes/A.md" := py "# A" ++ [LF];
                        py "notes/B.txt" := py "# B" ++ [LF] ]} [])
              example_metadata)
    as (st' & Hrun & Hcontent).
  - reflexivity.
  - intros p Hp _. revert p Hp. listed_files_readable.
  - exists st'. split; [exact Hrun|]. split.
    + apply (Hcontent (py "notes/A.md") (py "# A" ++ [LF]));
        [by left | reflexivity..].
    + apply (Hcontent (py "notes/B.txt") (py "# B" ++ [LF]));
        [by right; left | reflexivity..].
Defined.

(** C4 as stated fails in three ways: the template is stripped before it
    is prepended, so a template that ends in a newline is not prepended
    byte for byte; a listed path that does not end in [.md] is skipped;
    and a path listed twice gets the template twice. *)
Lemma step_3_not_verbatim_counterexample :
  let template := py "title: x" ++ [LF] in
  let old := py "# A" ++ [LF] in
  let st := State {[ py "metadata.yml" := template;
                     py "notes/A.md" := old;
                     py "notes/B.txt" := old ]} [] in
  let once := step_3 [py "notes/A.md"; py "notes/B.txt"] (py "metadata.yml") st in
  let twice := step_3 [py "notes/A.md"; py "notes/A.md"] (py "metadata.yml") st in
  once.1 = Ok ()
  ∧ files once.2 !! py "notes/A.md" = Some (py "title: x" ++ [LF; LF] ++ old)
  ∧ files once.2 !! py "notes/A.md" ≠ Some (template ++ [LF; LF] ++ old)
  ∧ files once.2 !! py "notes/B.txt" = Some old
  ∧ files once.2 !! py "notes/B.txt" ≠ Some (template ++ [LF; LF] ++ old)
  ∧ twice.1 = Ok ()
  ∧ files twice.2 !! py "notes/A.md"
    = Some (py "title: x" ++ [LF; LF] ++ py "title: x" ++ [LF; LF] ++ old).
Proof. split_and!; by vm_compute. Qed.

(** ** The Resource Appender *)

Lemma next_note_link_of_lookup (note_files : list str) (i : nat) :
  next_note_link_of note_files i
  = match note_files !! S i with
    | Some next_note =>
        py "[[" ++ (os_path_splitext (os_path_basename next_note)).1 ++ py "]]"
    | None => py "N/A"
    end.
Proof.
  unfold next_note_link_of.
  case_bool_decide as Hlast.
  - destruct (lookup_lt_is_Some_2 note_files (S i)) as [next Hnext]; [lia|].
    rewrite Hnext, Nat.add_1_r. by rewrite (nth_lookup_Some _ _ _ _ Hnext).
  - rewrite lookup_ge_None_2; [done | lia].
Qed.

Lemma lstrip_if_head (p : char → bool) (s : str) :
  lstrip_if p s = [] ∨ ∃ c rest, lstrip_if p s = c :: rest ∧ p c = false.
Proof.
  induction s as [|c s IH]; simpl; [by left|].
  destruct (p c) eqn:Hc; [done|]. right. by exists c, s.
Qed.

Lemma lstrip_if_keeps (p : char → bool) (s : str) (c : char) :
  p c = false → c ∈ s → c ∈ lstrip_if p s.
Proof.
  intros Hc. induction s as [|d s IH]; simpl; [done|].
  intros Hin. destruct (p d) eqn:Hd; [|done].
  apply elem_of_cons in Hin as [-> | Hin]; [congruence | by apply IH].
Qed.

(** What [strip] leaves ends in a character that is not white space. *)
Lemma strip_last (s : str) :
  strip s ≠ [] → ∃ c, last (strip s) = Some c ∧ isspace c = false.
Proof.
  unfold strip, rstrip_if. intros Hne.
  destruct (lstrip_if_head isspace (rev (lstrip_if isspace s)))
    as [Hnil | (c & rest & Hcons & Hc)].
  - by rewrite Hnil in Hne.
  - rewrite Hcons. simpl. exists c. by rewrite last_snoc.
Qed.

Lemma elem_of_rev (s : str) (c : char) : c ∈ rev s ↔ c ∈ s.
Proof. by rewrite !list_elem_of_In, <- in_rev. Qed.

(** A template that contains the placeholder is not blank. *)
Lemma strip_placeholder_nonempty (template : str) :
  occurs NEXT_NOTE_LINK template = true → strip template ≠ [].
Proof.
  intros Hoccurs.
  assert (60 ∈ template) as Hin.
  { induction template as [|c template IH]; [done|].
    cbn [occurs] in Hoccurs. apply orb_true_iff in Hoccurs as [Hhere|Hlater].
    - apply startswith_app in Hhere as [rest Hrest].
      injection Hrest as -> _. by left.
    - right. by apply IH. }
  assert (60 ∈ strip template) as Hkept.
  { unfold strip, rstrip_if. apply elem_of_rev, lstrip_if_keeps; [done|].
    by apply elem_of_rev, lstrip_if_keeps. }
  intros Hnil. rewrite Hnil in Hkept. by apply elem_of_nil in Hkept.
Qed.

Lemma next_note_link_of_last (note_files : list str) (i : nat) :
  ∃ c, last (next_note_link_of note_files i) = Some c
       ∧ islinebreak c = false.
Proof.
  unfold next_note_link_of. case_bool_decide.
  - exists 93. by rewrite !last_app.
  - by exists 65.
Qed.

Lemma islinebreak_isspace (c : char) :
  islinebreak c = true → isspace c = true.
Proof.
  unfold islinebreak, isspace.
  rewrite !orb_true_iff, !andb_true_iff, !N.leb_le, !N.eqb_eq. lia.
Qed.

(** The substituted text of a template that is not blank ends in a
    character that ends no line. *)
Lemma resources_content_of_last (resources_base : str)
    (note_files : list str) (i : nat) (c : char) :
  last resources_base = Some c → isspace c = false →
  ∃ d, last (resources_content_of resources_base note_files i) = Some d
       ∧ islinebreak d = false.
Proof.
  intros Hlast Hc. unfold resources_content_of.
  assert (islinebreak c = false) as Hbreak.
  { destruct (islinebreak c) eqn:Hb; [|done].
    apply islinebreak_isspace in Hb. congruence. }
  destruct (replace_segments NEXT_NOTE_LINK resources_base)
    as (segments & Hne & Hjoin & _ & Hreplace); [done|].
  rewrite Hreplace. rewrite Hjoin in Hlast. clear Hjoin Hreplace.
  destruct (next_note_link_of_last note_files i) as (d & Hd & Hdbreak).
  destruct segments as [|segment front _] using rev_ind; [done|].
  destruct front as [|first front].
  - simpl in *. by exists c.
  - rewrite join_snoc in Hlast |- * by done.
    rewrite !last_app in Hlast |- *. rewrite Hd.
    destruct (last segment) as [e|].
    + by exists c.
    + by exists d.
Qed.

(** *** The lines of a note after the append *)

Lemma splitlines_LF (s : str) : splitlines (LF :: s) = [] :: splitlines s.
Proof. by destruct s. Qed.

Lemma splitlines_cons_nonempty (c : char) (s : str) : splitlines (c :: s) ≠ [].
Proof.
  cbn [splitlines]. destruct (islinebreak c).
  - destruct s as [|d s]; [done|]. by destruct (_ && _).
  - by destruct (splitlines s).
Qed.

Lemma splitlines_app_LF_le (n : nat) (a b : str) :
  (length a ≤ n)%nat →
  splitlines (a ++ LF :: b) = splitlines (a ++ [LF]) ++ splitlines b.
Proof.
  revert a. induction n as [|n IH]; intros [|c a] Hlen; cbn [app];
    try (by rewrite splitlines_LF); [simpl in Hlen; lia|].
  simpl in Hlen. cbn [splitlines]. destruct (islinebreak c) eqn:Hc.
  - destruct a as [|d a]; cbn [app].
    + destruct ((c =? CR) && (LF =? LF)); [done|].
      by rewrite splitlines_LF.
    + simpl in Hlen.
      destruct ((c =? CR) && (d =? LF)); cbn [app]; f_equal.
      * apply IH. lia.
      * apply (IH (d :: a)). simpl. lia.
  - rewrite IH by lia.
    destruct (splitlines (a ++ [LF])) as [|line lines] eqn:Hlines; [|done].
    destruct a; by apply splitlines_cons_nonempty in Hlines.
Qed.

(** A newline closes the line it follows and opens the next one, whatever
    comes before it. *)
Lemma splitlines_app_LF (a b : str) :
  splitlines (a ++ LF :: b) = splitlines (a ++ [LF]) ++ splitlines b.
Proof. by apply (splitlines_app_LF_le (length a)). Qed.

Lemma splitlines_snoc_LF_le (n : nat) (t : str) (c : char) :
  (length t ≤ n)%nat →
  last t = Some c → islinebreak c = false →
  splitlines (t ++ [LF]) = splitlines t.
Proof.
  intros Hlen Hlast Hc. revert t Hlen Hlast.
  induction n as [|n IH]; intros [|e t] Hlen Hlast; try done;
    [simpl in Hlen; lia|].
  simpl in Hlen. cbn [app splitlines]. destruct (islinebreak e) eqn:He.
  - destruct t as [|d t]; [simpl in Hlast; congruence|].
    cbn [app]. simpl in Hlen.
    destruct ((e =? CR) && (d =? LF)) eqn:Hcr.
    + destruct t as [|x t].
      * apply andb_true_iff in Hcr as [_ Hd]. apply N.eqb_eq in Hd.
        simpl in Hlast. injection Hlast as <-. by subst d.
      * f_equal. apply (IH (x :: t)); [simpl in *; lia | done].
    + f_equal. apply (IH (d :: t)); [simpl; lia | done].
  - destruct t as [|d t]; [done|].
    rewrite (IH (d :: t)); [done | simpl in *; lia | done].
Qed.

(** A final newline opens no further line after a text that does not end
    in a line boundary. *)
Lemma splitlines_snoc_LF (t : str) (c : char) :
  last t = Some c → islinebreak c = false →
  splitlines (t ++ [LF]) = splitlines t.
Proof. by apply (splitlines_snoc_LF_le (length t)). Qed.

(** After a content that ends in a newline, each appended block shows as
    two empty lines and the lines of its text. *)
Lemma splitlines_blocks (old : str) (texts : list str) :
  endswith old [LF] = true →
  Forall (λ text, ∃ c, last text = Some c ∧ islinebreak c = false) texts →
  splitlines (old ++ concat ((λ text, [LF; LF] ++ text ++ [LF]) <$> texts))
  = splitlines old
    ++ concat ((λ text, [[]; []] ++ splitlines text) <$> texts).
Proof.
  intros Hold Htexts. revert old Hold.
  induction Htexts as [|text texts (c & Hlast & Hc) _ IH]; intros old Hold.
  - cbn. by rewrite !app_nil_r.
  - cbn [fmap list_fmap concat]. rewrite app_assoc, IH.
    2:{ apply endswith_app. exists (old ++ [LF; LF] ++ text).
        by rewrite <- !app_assoc. }
    assert (splitlines (old ++ [LF; LF] ++ text ++ [LF])
            = splitlines old ++ [[]; []] ++ splitlines text) as ->.
    { apply endswith_app in Hold as [body ->].
      rewrite <- app_assoc. cbn [app].
      rewrite splitlines_app_LF, !splitlines_LF.
      by rewrite (splitlines_snoc_LF text c). }
    by rewrite <- !app_assoc.
Qed.

Lemma positions_from_elem (n : nat) (x : str) (l : list str) :
  x ∈ l → positions_from n x l ≠ [].
Proof.
  revert n. induction l as [|y l IH]; intros n Hin; [by apply elem_of_nil in Hin|].
  rewrite positions_from_cons. case_decide as Hy; [done|].
  apply elem_of_cons in Hin as [-> | Hin]; [done | by apply IH].
Qed.

(** C6, as the code has it: for a template that is not blank, as every
    template with the placeholder is, [step_4] returns on readable files,
    and the content of a listed note is then its previous content followed,
    for each of its positions in the list, by two newlines, the substituted
    resources text and one newline; that content ends in exactly one
    newline.  A note that ended in a newline before, as every note of the
    Splitter does, therefore shows two empty lines, not one, between its
    last line and the resources text. *)
Theorem step_4_appends (note_files : list str) (resources_path : str)
    (st : state) (template : str) :
  files st !! resources_path = Some template →
  strip template ≠ [] →
  (∀ p, p ∈ note_files → is_Some (files st !! p)) →
  ∃ st',
    step_4 note_files resources_path st = (Ok (), st')
    ∧ ∀ p old,
        p ∈ note_files →
        files st !! p = Some old →
        ∃ new,
          files st' !! p = Some new
          ∧ new = old ++ concat ((λ i, [LF; LF]
                                       ++ resources_content_of (strip template)
                                            note_files i
                                       ++ [LF])
                                 <$> positions p note_files)
          ∧ one_trailing_newline new = true
          ∧ (endswith old [LF] = true →
             splitlines new
             = splitlines old
               ++ concat ((λ i, [[]; []]
                                ++ splitlines
                                     (resources_content_of (strip template)
                                        note_files i))
                          <$> positions p note_files)).
Proof.
  intros Htemplate Hblank Hreadable.
  destruct (step_4_run note_files resources_path st template Htemplate
              Hreadable) as (fs' & Hrun & Hfs').
  eexists. split; [done|]. intros p old Hp Hold. cbn [files].
  rewrite Hfs', Hold. cbn [fmap option_fmap option_map].
  eexists. split_and!; [done..| |].
  - destruct (strip_last template Hblank) as (c & Hlast & Hc).
    assert (positions p note_files ≠ []) as Hpos
      by exact (positions_from_elem 0 p note_files Hp).
    destruct (positions p note_files) as [|i before _] using rev_ind; [done|].
    rewrite fmap_app, concat_app. cbn [fmap list_fmap concat].
    destruct (resources_content_of_last (strip template) note_files i c
                Hlast Hc) as (d & Hd & Hdbreak).
    apply last_Some in Hd as [content Hcontent].
    unfold resources_block. rewrite Hcontent, app_nil_r.
    rewrite !app_assoc, one_trailing_newline_snoc, endswith_snoc.
    apply negb_true_iff, N.eqb_neq. by intros ->.
  - intros Hnewline.
    destruct (strip_last template Hblank) as (c & Hlast & Hc).
    pose proof (splitlines_blocks old
                  (resources_content_of (strip template) note_files
                   <$> positions p note_files) Hnewline) as Hlines.
    rewrite <- !list_fmap_compose in Hlines. apply Hlines.
    apply Forall_fmap, Forall_forall. intros i _.
    exact (resources_content_of_last (strip template) note_files i c
             Hlast Hc).
Qed.

Lemma step_4_appends_witness :
  let note_files := [py "notes/A.md"; py "notes/B.md"] in
  let st := State {[ py "templates/resources.md" := example_resources;
                     py "notes/A.md" := py "# A" ++ [LF];
                     py "notes/B.md" := py "# B" ++ [LF] ]} [] in
  ∃ st',
    step_4 note_files (py "templates/resources.md") st = (Ok (), st')
    ∧ ∀ p old,
        p ∈ note_files →
        files st !! p = Some old →
        ∃ new,
          files st' !! p = Some new
          ∧ new = old ++ concat ((λ i, [LF; LF]
                                       ++ resources_content_of
                                            (strip example_resources)
                                            note_files i
                                       ++ [LF])
                                 <$> positions p note_files)
          ∧ one_trailing_newline new = true
          ∧ (endswith old [LF] = true →
             splitlines new
             = splitlines old
               ++ concat ((λ i, [[]; []]
                                ++ splitlines
                                     (resources_content_of
                                        (strip example_resources)
                                        note_files i))
                          <$> positions p note_files)).
Proof.
  apply (step_4_appends [py "notes/A.md"; py "notes/B.md"]
           (py "templates/resources.md")
           (State {[ py "templates/resources.md" := example_resources;
                     py "notes/A.md" := py "# A" ++ [LF];
                     py "notes/B.md" := py "# B" ++ [LF] ]} [])
           example_resources).
  - reflexivity.
  - by vm_compute.
  - listed_files_readable.
Defined.

(** C6 as stated fails on the notes of the round trip, with a template
    that has the placeholder: [step_2] ends a note in a newline and
    [step_4] puts two more before the resources text, so two empty lines,
    not one, lie between the last line of the note and that text. *)
Lemma step_4_two_blank_lines_counterexample :
  let note_files := [py "notes/A.md"; py "notes/B.md"] in
  let split := step_2 (py "book.md") (py "notes") 1 example_state in
  let run := step_4 note_files (py "templates/resources.md") split.2 in
  let current := py "# A" ++ [LF] ++ py "foo" ++ [LF] in
  let new := current ++ [LF; LF] ++ py "Next: [[B]]" ++ [LF] in
  split.1 = Ok note_files
  ∧ files split.2 !! py "notes/A.md" = Some current
  ∧ run.1 = Ok ()
  ∧ files run.2 !! py "notes/A.md" = Some new
  ∧ splitlines new = [py "# A"; py "foo"; []; []; py "Next: [[B]]"]
  ∧ spec_appended_lines current (py "Next: [[B]]")
    = [py "# A"; py "foo"; []; py "Next: [[B]]"]
  ∧ splitlines new ≠ spec_appended_lines current (py "Next: [[B]]").
Proof. split_and!; by vm_compute. Qed.

(** ** Colliding headings *)

Lemma note_file_path_of_is_md (outdir_path heading_line : str) :
  is_md (note_file_path_of outdir_path heading_line) = true.
Proof.
  unfold is_md, note_file_path_of, os_path_join.
  assert (∀ front name,
            endswith (lower (front ++ name ++ md_ext)) md_ext = true) as Hmd.
  { intros front name. apply endswith_app.
    exists (lower (front ++ name)). unfold lower.
    by rewrite app_assoc, fmap_app. }
  destruct (startswith _ [SLASH]); [apply (Hmd [])|].
  destruct (_ || _); [apply Hmd|].
  rewrite (app_assoc outdir_path). apply Hmd.
Qed.

Lemma step_2_paths (outdir_path : str) (lines : list str) (prefix : str) :
  chunk_path outdir_path <$> chunks_of lines (split_indices_of lines prefix)
  = note_file_path_of outdir_path
    <$> List.filter (λ line, startswith line prefix) lines.
Proof.
  rewrite chunks_of_spec, <- spec_split_headings.
  by rewrite <- list_fmap_compose.
Qed.

Lemma foldl_write_chunk_is_Some (outdir_path : str)
    (fs : gmap (list N) (list N)) (chunks : list (list str)) (p : str) :
  is_Some (fs !! p) ∨ p ∈ chunk_path outdir_path <$> chunks →
  is_Some (foldl (write_chunk outdir_path) fs chunks !! p).
Proof.
  revert fs. induction chunks as [|chunk chunks IH]; intros fs Hp.
  - destruct Hp as [Hp | Hp]; [done | by apply elem_of_nil in Hp].
  - cbn [foldl]. apply IH. unfold write_chunk at 1.
    rewrite lookup_insert_is_Some'.
    destruct Hp as [Hp | Hp]; [by left; right|].
    cbn [fmap list_fmap] in Hp.
    apply elem_of_cons in Hp as [-> | Hp]; [by left; left | by right].
Qed.

Lemma foldl_write_chunk_other (outdir_path : str)
    (fs : gmap (list N) (list N)) (chunks : list (list str)) (p : str) :
  p ∉ chunk_path outdir_path <$> chunks →
  foldl (write_chunk outdir_path) fs chunks !! p = fs !! p.
Proof.
  revert fs. induction chunks as [|chunk chunks IH]; intros fs Hp; [done|].
  cbn [fmap list_fmap] in Hp. apply not_elem_of_cons in Hp as [Hne Hp].
  cbn [foldl]. rewrite IH by done. unfold write_chunk.
  by rewrite lookup_insert_ne.
Qed.

Lemma foldl_write_chunk_dom (outdir_path : str)
    (fs : gmap (list N) (list N)) (chunks : list (list str)) :
  dom (foldl (write_chunk outdir_path) fs chunks)
  = dom fs ∪ list_to_set (chunk_path outdir_path <$> chunks).
Proof.
  revert fs. induction chunks as [|chunk chunks IH]; intros fs.
  - cbn. set_solver.
  - cbn [foldl fmap list_fmap list_to_set]. rewrite IH. unfold write_chunk.
    rewrite dom_insert_L. set_solver.
Qed.

Lemma safe_heading_of_legal (heading_line : str) (c : char) :
  illegal c = true → c ∉ safe_heading_of heading_line.
Proof.
  intros Hc Hin.
  pose proof (sanitize_legal (strip (lstrip_if (N.eqb HASH) heading_line)))
    as Hlegal.
  rewrite List.Forall_forall in Hlegal.
  apply list_elem_of_In, Hlegal in Hin. congruence.
Qed.

Lemma occurrences_fmap {A} (f : A → str) (l : list A) (p : str) :
  occurrences p (f <$> l) = length (filter (λ x, f x = p) l).
Proof.
  unfold occurrences. induction l as [|x l IH]; [done|].
  cbn [fmap list_fmap]. rewrite !filter_cons.
  case_decide; simpl; by rewrite IH.
Qed.

(** C10: the list [step_2] returns has one entry per heading line, so a
    path that several heading lines share is listed once for each of them;
    [step_3] then prepends the metadata that many times to the file, and
    [step_4] appends one resources block for each position of the path in
    the list.  [main] runs the three steps in this way. *)
Theorem main_colliding_headings
    (pandoc : str → str → str → gmap (list N) (list N) → gmap (list N) (list N))
    (a : args) (st : state) (document metadata0 resources0 : str) :
  arg_step_1 a = false →
  files (converted pandoc a st) !! arg_outfile a = Some document →
  files (converted pandoc a st) !! arg_metadata a = Some metadata0 →
  files (converted pandoc a st) !! arg_resources a = Some resources0 →
  let headings :=
    List.filter (λ line, startswith line (heading_prefix (arg_heading_level a)))
      (splitlines document) in
  let note_files := note_file_path_of (arg_outdir a) <$> headings in
  headings ≠ [] →
  ∃ st2 st3 st4 metadata resources,
    step_2 (arg_outfile a) (arg_outdir a) (arg_heading_level a)
      (converted pandoc a st) = (Ok note_files, st2)
    ∧ files st2 !! arg_metadata a = Some metadata
    ∧ step_3 note_files (arg_metadata a) st2 = (Ok (), st3)
    ∧ files st3 !! arg_resources a = Some resources
    ∧ step_4 note_files (arg_resources a) st3 = (Ok (), st4)
    ∧ main pandoc a st
      = (Ok (), State (files st4) (console st4 ++ [PipelineComplete]))
    ∧ ∀ p, p ∈ note_files →
        let listed :=
          length (filter (λ heading,
                            note_file_path_of (arg_outdir a) heading = p)
                    headings) in
        let with_metadata := λ written,
          Nat.iter listed (λ content, strip metadata ++ [LF; LF] ++ content)
            written in
        occurrences p note_files = listed
        ∧ length (positions p note_files) = listed
        ∧ ∃ written,
            files st2 !! p = Some written
            ∧ files st3 !! p = Some (with_metadata written)
            ∧ files st4 !! p
              = Some (with_metadata written
                      ++ concat ((λ i, [LF; LF]
                                       ++ resources_content_of (strip resources)
                                            note_files i
                                       ++ [LF])
                                 <$> positions p note_files)).
Proof.
  intros Hflag Hdocument Hmetadata Hresources headings note_files Hsome.
  pose proof (step_2_run (arg_outfile a) (arg_outdir a) (arg_heading_level a)
                _ _ Hdocument) as Hrun2.
  cbn zeta in Hrun2. rewrite step_2_paths in Hrun2.
  fold headings note_files in Hrun2.
  set (chunks := chunks_of _ _) in Hrun2.
  set (st2 := State (foldl _ _ _) _) in Hrun2.
  assert (∀ p, p ∈ note_files → is_Some (files st2 !! p)) as Hwritten.
  { intros p Hp. apply foldl_write_chunk_is_Some. right.
    unfold chunks. by rewrite step_2_paths. }
  assert (∀ p, is_Some (files (converted pandoc a st) !! p) →
               is_Some (files st2 !! p)) as Hkept.
  { intros p Hp. apply foldl_write_chunk_is_Some. by left. }
  destruct (Hkept (arg_metadata a)) as [metadata Hmetadata2]; [by eexists|].
  destruct (step_3_run note_files (arg_metadata a) st2 metadata Hmetadata2)
    as (fs3 & Hrun3 & Hfs3); [by auto|].
  set (st3 := State fs3 _) in Hrun3.
  assert (∀ p, is_Some (files st2 !! p) → is_Some (files st3 !! p)) as Hkept3.
  { intros p [c Hc]. cbn [st3 files]. rewrite Hfs3, Hc. by eexists. }
  destruct (Hkept3 (arg_resources a)) as [resources Hresources3].
  { apply Hkept. by eexists. }
  destruct (step_4_run note_files (arg_resources a) st3 resources Hresources3)
    as (fs4 & Hrun4 & Hfs4); [by auto|].
  set (st4 := State fs4 _) in Hrun4.
  exists st2, st3, st4, metadata, resources. split_and!; [done..| |].
  - rewrite main_until_step_2 by done. unfold bind at 1. rewrite Hrun2.
    destruct note_files as [|note_file rest] eqn:Hnotes.
    { apply fmap_nil_inv in Hnotes. done. }
    unfold bind at 1. rewrite Hrun3. unfold bind at 1. rewrite Hrun4.
    done.
  - intros p Hp listed with_metadata.
    assert (occurrences p note_files = listed) as Hlisted
      by apply occurrences_fmap.
    split_and!; [done | by rewrite <- Hlisted; apply positions_from_length|].
    destruct (Hwritten p Hp) as [written Hwritten_p].
    exists written. split; [done|].
    assert (files st3 !! p = Some (with_metadata written)) as Hp3.
    { cbn [st3 files]. rewrite Hfs3, Hwritten_p.
      apply list_elem_of_fmap in Hp as (heading & -> & _).
      by rewrite note_file_path_of_is_md, Hlisted. }
    split; [done|]. cbn [st4 files]. by rewrite Hfs4, Hp3.
Qed.

Lemma main_colliding_headings_witness :
  let pandoc := λ _ _ _ fs, fs in
  let a := Args (py "book.epub") (py "book.md") (py "attachments")
             (py "templates/metadata.yml") (py "templates/resources.md")
             (py "notes") 1 false true in
  let document :=
    py "# X" ++ [LF] ++ py "one" ++ [LF] ++ py "# X" ++ [LF] ++ py "two" in
  let st := State {[ py "book.md" := document;
                     py "templates/metadata.yml" := example_metadata;
                     py "templates/resources.md" := example_resources ]} [] in
  let headings :=
    List.filter (λ line, startswith line (heading_prefix (arg_heading_level a)))
      (splitlines document) in
  let note_files := note_file_path_of (arg_outdir a) <$> headings in
  ∃ st2 st3 st4 metadata resources,
    step_2 (arg_outfile a) (arg_outdir a) (arg_heading_level a)
      (converted pandoc a st) = (Ok note_files, st2)
    ∧ files st2 !! arg_metadata a = Some metadata
    ∧ step_3 note_files (arg_metadata a) st2 = (Ok (), st3)
    ∧ files st3 !! arg_resources a = Some resources
    ∧ step_4 note_files (arg_resources a) st3 = (Ok (), st4)
    ∧ main pandoc a st
      = (Ok (), State (files st4) (console st4 ++ [PipelineComplete]))
    ∧ ∀ p, p ∈ note_files →
        let listed :=
          length (filter (λ heading,
                            note_file_path_of (arg_outdir a) heading = p)
                    headings) in
        let with_metadata := λ written,
          Nat.iter listed (λ content, strip metadata ++ [LF; LF] ++ content)
            written in
        occurrences p note_files = listed
        ∧ length (positions p note_files) = listed
        ∧ ∃ written,
            files st2 !! p = Some written
            ∧ files st3 !! p = Some (with_metadata written)
            ∧ files st4 !! p
              = Some (with_metadata written
                      ++ concat ((λ i, [LF; LF]
                                       ++ resources_content_of (strip resources)
                                            note_files i
                                       ++ [LF])
                                 <$> positions p note_files)).
Proof.
  apply (main_colliding_headings (λ _ _ _ fs, fs)
           (Args (py "book.epub") (py "book.md") (py "attachments")
              (py "templates/metadata.yml") (py "templates/resources.md")
              (py "notes") 1 false true)
           (State {[ py "book.md" :=
                       py "# X" ++ [LF] ++ py "one" ++ [LF]
                       ++ py "# X" ++ [LF] ++ py "two";
                     py "templates/metadata.yml" := example_metadata;
                     py "templates/resources.md" := example_resources ]} [])
           (py "# X" ++ [LF] ++ py "one" ++ [LF] ++ py "# X" ++ [LF]
            ++ py "two")
           example_metadata example_resources).
  - reflexivity.
  - reflexivity.
  - reflexivity.
  - reflexivity.
  - discriminate.
Defined.

(** The run of that collision: one file, with the metadata twice, the chunk
    of the second heading, and one resources block for each listing. *)
Example colliding_headings_run :
  let a := Args (py "book.epub") (py "book.md") (py "attachments")
             (py "templates/metadata.yml") (py "templates/resources.md")
             (py "notes") 1 false true in
  let document :=
    py "# X" ++ [LF] ++ py "one" ++ [LF] ++ py "# X" ++ [LF] ++ py "two" in
  let st := State {[ py "book.md" := document;
                     py "templates/metadata.yml" := example_metadata;
                     py "templates/resources.md" := example_resources ]} [] in
  let metadata := py "---" ++ [LF] ++ py "tags: book" ++ [LF] ++ py "---" in
  let run := main (λ _ _ _ fs, fs) a st in
  run.1 = Ok ()
  ∧ files run.2 !! py "notes/X.md"
    = Some (metadata ++ [LF; LF] ++ metadata ++ [LF; LF]
            ++ py "# X" ++ [LF] ++ py "two" ++ [LF]
            ++ [LF; LF] ++ py "Next: [[X]]" ++ [LF]
            ++ [LF; LF] ++ py "Next: N/A" ++ [LF]).
Proof. split; by vm_compute. Qed.

(** ** How many notes *)

(** Two heading lines that give the same path have the same sanitized
    heading: the output directory and the extension are the same for
    both, and a sanitized heading has no slash. *)
Lemma note_file_path_of_inj (outdir_path heading_1 heading_2 : str) :
  note_file_path_of outdir_path heading_1
  = note_file_path_of outdir_path heading_2 →
  safe_heading_of heading_1 = safe_heading_of heading_2.
Proof.
  unfold note_file_path_of, os_path_join.
  assert (∀ heading,
            startswith (safe_heading_of heading ++ md_ext) [SLASH] = false)
    as Hrelative.
  { intros heading.
    pose proof (safe_heading_of_legal heading SLASH eq_refl) as Hslash.
    destruct (safe_heading_of heading) as [|c rest]; [done|].
    apply not_elem_of_cons in Hslash as [Hne _]. cbn.
    rewrite andb_true_r. apply N.eqb_neq. congruence. }
  rewrite !Hrelative. destruct (_ || _); intros Heq.
  - apply app_inv_head in Heq. by apply app_inv_tail in Heq.
  - do 2 apply app_inv_head in Heq. by apply app_inv_tail in Heq.
Qed.

(** A list names as many files as it has entries exactly when no path is
    listed twice; otherwise it names fewer. *)
Lemma size_list_to_set_length (l : list str) :
  (size (list_to_set l : gset (list N)) ≤ length l)%nat
  ∧ (size (list_to_set l : gset (list N)) = length l ↔ NoDup l).
Proof.
  induction l as [|x l [IHle IHeq]]; cbn [list_to_set length].
  - rewrite size_empty. split; [done|]. split; [constructor | done].
  - destruct (decide (x ∈ l)) as [Hin | Hnot].
    + assert ({[x]} ∪ list_to_set l = (list_to_set l : gset (list N))) as ->
        by set_solver.
      split; [lia|]. split; [lia|].
      intros Hnodup. by apply NoDup_cons in Hnodup as [? _].
    + rewrite size_union by set_solver. rewrite size_singleton.
      split; [lia|]. rewrite NoDup_cons. split.
      * intros Hsize. split; [done|]. apply IHeq. lia.
      * intros [_ Hnodup]. apply IHeq in Hnodup. lia.
Qed.

(** C1, as the code has it: for every readable document and every heading
    level, [step_2] returns, and the list of note paths it returns has as
    many entries as the document has heading lines, that is lines that
    start with L heading markers followed by a space.  Every returned path
    is a file after the run, and the files after the run are those before
    it and the returned paths.  The notes, the files at the returned paths,
    are as many as the heading lines exactly when no two heading lines
    have the same sanitized heading; otherwise they are fewer. *)
Theorem step_2_note_count (outfile_path outdir_path : str) (heading_lvl : Z)
    (st : state) (document : str) :
  files st !! outfile_path = Some document →
  let headings :=
    List.filter
      (λ line, startswith line
                 (replicate (Z.to_nat heading_lvl) HASH ++ [SPACE]))
      (splitlines document) in
  ∃ note_file_paths st',
    step_2 outfile_path outdir_path heading_lvl st = (Ok note_file_paths, st')
    ∧ length note_file_paths = length headings
    ∧ (∀ p, p ∈ note_file_paths → is_Some (files st' !! p))
    ∧ dom (files st') = dom (files st) ∪ list_to_set note_file_paths
    ∧ (size (list_to_set note_file_paths : gset (list N)) ≤ length headings)%nat
    ∧ (size (list_to_set note_file_paths : gset (list N)) = length headings
       ↔ NoDup (safe_heading_of <$> headings)).
Proof.
  intros Hread headings. eexists _, _. split; [by apply step_2_run|].
  cbn [files]. rewrite foldl_write_chunk_dom.
  pose proof (foldl_write_chunk_is_Some outdir_path (files st)
                (chunks_of (splitlines document)
                   (split_indices_of (splitlines document)
                      (heading_prefix heading_lvl)))) as Hwritten.
  rewrite step_2_paths in Hwritten |- *.
  change (List.filter _ (splitlines document)) with headings in Hwritten |- *.
  pose proof (size_list_to_set_length
                (note_file_path_of outdir_path <$> headings)) as [Hle Heq].
  rewrite length_fmap in Hle, Heq.
  split_and!; [by rewrite length_fmap | by auto | done | done |].
  rewrite Heq.
  replace (note_file_path_of outdir_path <$> headings)
    with ((λ name, os_path_join outdir_path (name ++ md_ext))
          <$> (safe_heading_of <$> headings))
    by by rewrite <- list_fmap_compose.
  split; [apply NoDup_fmap_1|].
  apply NoDup_fmap_2_strong. intros name_1 name_2 Hname_1 Hname_2.
  apply list_elem_of_fmap in Hname_1 as (heading_1 & -> & _).
  apply list_elem_of_fmap in Hname_2 as (heading_2 & -> & _).
  apply note_file_path_of_inj.
Qed.

Lemma step_2_note_count_witness :
  let headings :=
    List.filter
      (λ line, startswith line (replicate (Z.to_nat 1) HASH ++ [SPACE]))
      (splitlines example_document) in
  ∃ note_file_paths st',
    step_2 (py "book.md") (py "notes") 1 example_state
    = (Ok note_file_paths, st')
    ∧ length note_file_paths = length headings
    ∧ (∀ p, p ∈ note_file_paths → is_Some (files st' !! p))
    ∧ dom (files st') = dom (files example_state) ∪ list_to_set note_file_paths
    ∧ (size (list_to_set note_file_paths : gset (list N)) ≤ length headings)%nat
    ∧ (size (list_to_set note_file_paths : gset (list N)) = length headings
       ↔ NoDup (safe_heading_of <$> headings)).
Proof.
  apply (step_2_note_count (py "book.md") (py "notes") 1 example_state
           example_document).
  reflexivity.
Defined.

(** C1 as stated fails when two heading lines sanitize to the same name:
    the returned list has two entries, one for each heading line, but the
    run has produced one note. *)
Lemma step_2_shared_note_counterexample :
  let document :=
    py "# X?" ++ [LF] ++ py "one" ++ [LF] ++ py "# X" ++ [LF] ++ py "two" in
  let st := State {[ py "book.md" := document ]} [] in
  let run := step_2 (py "book.md") (py "notes") 1 st in
  length (List.filter (λ line, startswith line (py "# ")) (splitlines document))
  = 2%nat
  ∧ run.1 = Ok [py "notes/X.md"; py "notes/X.md"]
  ∧ dom (files run.2) ∖ dom (files st) = {[ py "notes/X.md" ]}
  ∧ size (dom (files run.2) ∖ dom (files st)) = 1%nat.
Proof. split_and!; by vm_compute. Qed.

(** ** The scenarios of the specification *)

(** The round trip: two notes, in the order of the document. *)
Example round_trip_scenario :
  let run := step_2 (py "book.md") (py "notes") 1 example_state in
  run.1 = Ok [py "notes/A.md"; py "notes/B.md"]
  ∧ files run.2 !! py "notes/A.md" = Some (py "# A" ++ [LF] ++ py "foo" ++ [LF])
  ∧ files run.2 !! py "notes/B.md" = Some (py "# B" ++ [LF] ++ py "bar" ++ [LF]).
Proof. split_and!; by vm_compute. Qed.

(** The collision: two headings that sanitize to the same name leave one
    file, with the chunk of the second. *)
Example collision_scenario :
  let document :=
    py "# X?" ++ [LF] ++ py "one" ++ [LF] ++ py "# X" ++ [LF] ++ py "two" in
  let run := step_2 (py "book.md") (py "notes") 1
               (State {[ py "book.md" := document ]} []) in
  run.1 = Ok [py "notes/X.md"; py "notes/X.md"]
  ∧ files run.2 !! py "notes/X.md" = Some (py "# X" ++ [LF] ++ py "two" ++ [LF])
  ∧ dom (files run.2) = {[ py "book.md"; py "notes/X.md" ]}.
Proof. split_and!; by vm_compute. Qed.

(** The whole pipeline on the round trip. *)
Example pipeline_scenario :
  let a := Args (py "book.epub") (py "book.md") (py "attachments")
             (py "templates/metadata.yml") (py "templates/resources.md")
             (py "notes") 1 false true in
  let metadata := py "---" ++ [LF] ++ py "tags: book" ++ [LF] ++ py "---" in
  let run := main (λ _ _ _ fs, fs) a example_state in
  run.1 = Ok ()
  ∧ files run.2 !! py "notes/A.md"
    = Some (metadata ++ [LF; LF] ++ py "# A" ++ [LF] ++ py "foo" ++ [LF]
            ++ [LF; LF] ++ py "Next: [[B]]" ++ [LF])
  ∧ files run.2 !! py "notes/B.md"
    = Some (metadata ++ [LF; LF] ++ py "# B" ++ [LF] ++ py "bar" ++ [LF]
            ++ [LF; LF] ++ py "Next: N/A" ++ [LF])
  ∧ console run.2
    = [PipelineStarting; Step2Splitting 1; Step2Done 2; Step3Prepending;
       Step3Done; Step4Appending; Step4Done; FinalStepReview;
       PipelineComplete].
Proof. split_and!; by vm_compute. Qed.

(** The name without extension that [step_4] links to is the sanitized
    heading, except for a heading that sanitizes to dots only or to
    nothing: [os.path.splitext] sees no extension in such a file name. *)
Example link_names :
  (os_path_splitext (os_path_basename (py "notes/Part 1.md"))).1 = py "Part 1"
  ∧ (os_path_splitext (os_path_basename (py "notes/v1.2.md"))).1 = py "v1.2"
  ∧ (os_path_splitext (os_path_basename (py "notes/.md"))).1 = py ".md"
  ∧ (os_path_splitext (os_path_basename (py "notes/...md"))).1 = py "...md".
Proof. split_and!; by vm_compute. Qed.

(** ** The name a link shows *)

Lemma rfind_absent (c : char) (s : str) : c ∉ s → rfind c s = (-1)%Z.
Proof.
  induction s as [|d s IH]; [done|]. intros Hnot.
  apply not_elem_of_cons in Hnot as [Hne Hnot]. simpl.
  rewrite IH by done. simpl. by rewrite (proj2 (N.eqb_neq d c)).
Qed.

Lemma rfind_last (c : char) (s rest : str) :
  c ∉ rest → rfind c (s ++ c :: rest) = Z.of_nat (length s).
Proof.
  intros Hnot. induction s as [|d s IH]; simpl.
  - rewrite rfind_absent by done. simpl. by rewrite N.eqb_refl.
  - rewrite IH. destruct (0 <=? Z.of_nat (length s))%Z eqn:Hle; [lia|].
    apply Z.leb_gt in Hle. lia.
Qed.

Lemma os_path_basename_join (a b : str) :
  SLASH ∉ b → os_path_basename (os_path_join a b) = b.
Proof.
  intros Hb. unfold os_path_join.
  destruct (startswith b [SLASH]) eqn:Hstart.
  { apply startswith_app in Hstart as [rest ->]. by destruct Hb; left. }
  assert (∀ front, os_path_basename (front ++ SLASH :: b) = b) as Hsep.
  { intros front. unfold os_path_basename. rewrite rfind_last by done.
    replace (Z.to_nat (Z.of_nat (length front) + 1)) with (length front + 1)%nat
      by lia.
    by rewrite <- drop_drop, drop_app_length. }
  destruct (bool_decide (a = []) || endswith a [SLASH]) eqn:Hdir; [|apply Hsep].
  apply orb_true_iff in Hdir as [Hnil | Hslash].
  - apply bool_decide_eq_true in Hnil as ->. unfold os_path_basename.
    by rewrite rfind_absent.
  - apply endswith_app in Hslash as [front ->]. rewrite <- app_assoc.
    apply Hsep.
Qed.

Lemma not_in_md_ext (c : char) : c ∈ md_ext → c = DOT ∨ c = 109 ∨ c = 100.
Proof.
  intros Hin.
  repeat (apply elem_of_cons in Hin as [-> | Hin]; [by auto|]).
  by apply elem_of_nil in Hin.
Qed.

(** The extension that [os.path.splitext] sees in the file name of a
    note. *)
Lemma os_path_splitext_note_name (name : str) :
  SLASH ∉ name →
  os_path_splitext (name ++ md_ext)
  = if existsb (λ c, negb (c =? DOT)) name
    then (name, md_ext) else (name ++ md_ext, []).
Proof.
  intros Hslash. unfold os_path_splitext.
  rewrite rfind_absent.
  2:{ rewrite elem_of_app. intros [Hin | Hin]; [done|].
      by apply not_in_md_ext in Hin as [[=] | [[=] | [=]]]. }
  change (name ++ md_ext) with (name ++ DOT :: py "md").
  rewrite rfind_last.
  2:{ intros Hin.
      by repeat (apply elem_of_cons in Hin as [[=] | Hin]);
        apply elem_of_nil in Hin. }
  rewrite Nat2Z.id. unfold slice.
  change (Z.to_nat (-1 + 1)) with 0%nat.
  rewrite take_app_length, drop_0, drop_app_length.
  assert ((-1 <? Z.of_nat (length name))%Z = true) as ->
    by (apply Z.ltb_lt; lia).
  done.
Qed.

Lemma rfind_present (c : char) (s : str) : c ∈ s → (0 ≤ rfind c s)%Z.
Proof.
  induction s as [|d s IH]; intros Hin; [by apply elem_of_nil in Hin|].
  cbn [rfind]. destruct (0 <=? rfind c s)%Z eqn:Hr.
  - apply Z.leb_le in Hr. lia.
  - apply elem_of_cons in Hin as [-> | Hin].
    + by rewrite N.eqb_refl.
    + apply IH in Hin. apply Z.leb_gt in Hr. lia.
Qed.

(** [os.path.basename] returns what follows the last slash. *)
Lemma os_path_basename_file_name (path : str) :
  os_path_basename path = spec_file_name path.
Proof.
  induction path as [|c rest IH]; [done|].
  cbn [spec_file_name]. unfold os_path_basename in *. cbn [rfind].
  case_bool_decide as Hin.
  - pose proof (rfind_present SLASH rest Hin) as Hr.
    rewrite (proj2 (Z.leb_le _ _) Hr).
    replace (Z.to_nat (rfind SLASH rest + 1 + 1))
      with (S (Z.to_nat (rfind SLASH rest + 1))) by lia.
    by rewrite <- IH.
  - rewrite rfind_absent by done. cbn.
    by destruct (c =? SLASH).
Qed.

Lemma spec_file_name_no_slash (path : str) : SLASH ∉ spec_file_name path.
Proof.
  induction path as [|c rest IH]; cbn [spec_file_name].
  - apply not_elem_of_nil.
  - case_bool_decide as Hin; [done|].
    destruct (c =? SLASH) eqn:Hc; [done|].
    apply not_elem_of_cons. split; [|done].
    apply N.eqb_neq in Hc. congruence.
Qed.

Lemma spec_file_name_app (path name : str) :
  SLASH ∉ name → spec_file_name (path ++ name) = spec_file_name path ++ name.
Proof.
  intros Hname. induction path as [|c rest IH].
  - cbn [app spec_file_name]. induction name as [|d name IHname]; [done|].
    apply not_elem_of_cons in Hname as [Hd Hname]. cbn [spec_file_name].
    rewrite bool_decide_eq_false_2 by done.
    by rewrite (proj2 (N.eqb_neq d SLASH)) by done.
  - cbn [app spec_file_name].
    rewrite (bool_decide_ext (SLASH ∈ rest ++ name) (SLASH ∈ rest))
      by (rewrite elem_of_app; tauto).
    case_bool_decide; [done|]. by destruct (c =? SLASH).
Qed.

(** The name without extension that [step_4] takes from a note file. *)
Lemma link_name_of_note_file (path : str) :
  endswith path md_ext = true →
  (os_path_splitext (os_path_basename path)).1 = link_name_of path.
Proof.
  intros Hmd. apply endswith_app in Hmd as [front ->].
  assert (SLASH ∉ md_ext) as Hext.
  { intros Hin. by apply not_in_md_ext in Hin as [[=] | [[=] | [=]]]. }
  rewrite os_path_basename_file_name. unfold link_name_of, spec_base_name.
  rewrite spec_file_name_app by done.
  rewrite (proj2 (endswith_app _ _)) by by eexists.
  rewrite length_app, Nat.add_sub, take_app_length.
  rewrite os_path_splitext_note_name by apply spec_file_name_no_slash.
  by destruct (existsb _ _).
Qed.

(** C5, as the code has it: [step_4] returns on readable files, and what
    it appends to a note for each of its positions in the list is the
    stripped template with every occurrence of the placeholder replaced by
    the reference to the next note: the template is the segments between
    the occurrences joined by the placeholder, the appended text is the
    same segments joined by the reference.  For note files, whose paths end
    in [.md], the reference is the sentinel for the last note and otherwise
    the wiki-link around the base name of the note at the next position,
    unless that base name is empty or made of dots only: the link then
    shows the file name with its extension.  Where the base name has a
    character other than a dot, the reference is the one of the
    specification. *)
Theorem step_4_next_note_reference (note_files : list str)
    (resources_path : str) (st : state) (template : str) :
  files st !! resources_path = Some template →
  (∀ p, p ∈ note_files → is_Some (files st !! p)) →
  Forall (λ p, endswith p (py ".md") = true) note_files →
  let reference := λ i,
    match note_files !! S i with
    | Some next_note => py "[[" ++ link_name_of next_note ++ py "]]"
    | None => py "N/A"
    end in
  ∃ segments st',
    strip template = join (py "<NEXT_NOTE_LINK>") segments
    ∧ Forall (λ segment, occurs (py "<NEXT_NOTE_LINK>") segment = false)
        segments
    ∧ step_4 note_files resources_path st = (Ok (), st')
    ∧ (∀ i, next_note_link_of note_files i = reference i)
    ∧ (∀ i, resources_content_of (strip template) note_files i
            = join (reference i) segments)
    ∧ (∀ i next_note,
         note_files !! S i = Some next_note →
         existsb (λ c, negb (c =? DOT)) (spec_base_name next_note) = true →
         reference i = spec_next_note_reference note_files i)
    ∧ ∀ p old,
        p ∈ note_files →
        files st !! p = Some old →
        files st' !! p
        = Some (old ++ concat ((λ i, [LF; LF] ++ join (reference i) segments
                                     ++ [LF])
                               <$> positions p note_files)).
Proof.
  intros Htemplate Hreadable Hnotes reference.
  destruct (step_4_run note_files resources_path st template Htemplate
              Hreadable) as (fs' & Hrun & Hfs').
  destruct (replace_segments NEXT_NOTE_LINK (strip template))
    as (segments & _ & Hjoin & Hfree & Hreplace); [done|].
  assert (∀ i, next_note_link_of note_files i = reference i) as Hlink.
  { intros i. rewrite next_note_link_of_lookup. unfold reference.
    destruct (note_files !! S i) as [next_note|] eqn:Hnext; [|done].
    rewrite link_name_of_note_file; [done|].
    exact (Forall_lookup_1 _ _ _ _ Hnotes Hnext). }
  assert (∀ i, resources_content_of (strip template) note_files i
               = join (reference i) segments) as Hcontent.
  { intros i. unfold resources_content_of. rewrite Hlink. apply Hreplace. }
  exists segments. eexists. split_and!; [done..| |].
  - intros i next_note Hnext Hname.
    unfold reference, spec_next_note_reference, link_name_of.
    by rewrite Hnext, Hname.
  - intros p old Hp Hold. cbn [files]. rewrite Hfs', Hold.
    cbn [fmap option_fmap option_map]. do 3 f_equal.
    apply list_fmap_ext. intros _ i _.
    unfold resources_block, blank_line. by rewrite Hcontent.
Qed.

Lemma step_4_next_note_reference_witness :
  let note_files := [py "notes/A.md"; py "notes/B.md"] in
  let st := State {[ py "templates/resources.md" := example_resources;
                     py "notes/A.md" := py "# A" ++ [LF];
                     py "notes/B.md" := py "# B" ++ [LF] ]} [] in
  let reference := λ i,
    match note_files !! S i with
    | Some next_note => py "[[" ++ link_name_of next_note ++ py "]]"
    | None => py "N/A"
    end in
  ∃ segments st',
    strip example_resources = join (py "<NEXT_NOTE_LINK>") segments
    ∧ Forall (λ segment, occurs (py "<NEXT_NOTE_LINK>") segment = false)
        segments
    ∧ step_4 note_files (py "templates/resources.md") st = (Ok (), st')
    ∧ (∀ i, next_note_link_of note_files i = reference i)
    ∧ (∀ i, resources_content_of (strip example_resources) note_files i
            = join (reference i) segments)
    ∧ (∀ i next_note,
         note_files !! S i = Some next_note →
         existsb (λ c, negb (c =? DOT)) (spec_base_name next_note) = true →
         reference i = spec_next_note_reference note_files i)
    ∧ ∀ p old,
        p ∈ note_files →
        files st !! p = Some old →
        files st' !! p
        = Some (old ++ concat ((λ i, [LF; LF] ++ join (reference i) segments
                                     ++ [LF])
                               <$> positions p note_files)).
Proof.
  apply (step_4_next_note_reference [py "notes/A.md"; py "notes/B.md"]
           (py "templates/resources.md")
           (State {[ py "templates/resources.md" := example_resources;
                     py "notes/A.md" := py "# A" ++ [LF];
                     py "notes/B.md" := py "# B" ++ [LF] ]} [])
           example_resources).
  - reflexivity.
  - listed_files_readable.
  - by repeat constructor.
Defined.

(** C5 as stated fails for a note whose heading sanitizes to nothing: its
    file is [.md], in which [os.path.splitext] sees no extension, so the
    link to it is around [.md] and not around the empty base name. *)
Lemma step_4_dot_name_counterexample :
  let document :=
    py "# A" ++ [LF] ++ py "foo" ++ [LF] ++ py "# ?" ++ [LF] ++ py "bar" in
  let st := State {[ py "book.md" := document;
                     py "templates/resources.md" := example_resources ]} [] in
  let note_files := [py "notes/A.md"; py "notes/.md"] in
  let split := step_2 (py "book.md") (py "notes") 1 st in
  let run := step_4 note_files (py "templates/resources.md") split.2 in
  split.1 = Ok note_files
  ∧ run.1 = Ok ()
  ∧ files run.2 !! py "notes/A.md"
    = Some (py "# A" ++ [LF] ++ py "foo" ++ [LF]
            ++ [LF; LF] ++ py "Next: [[.md]]" ++ [LF])
  ∧ next_note_link_of note_files 0 = py "[[.md]]"
  ∧ spec_next_note_reference note_files 0 = py "[[]]".
Proof. split_and!; by vm_compute. Qed.

(** * More of the code *)

(** ** What a run keeps *)

(** A property of the state that every step of a computation keeps is kept
    by the computation, whether it returns or raises. *)
Lemma bind_keeps {A B} (I : state → Prop) (m : M A) (k : A → M B)
    (st : state) :
  I (m st).2 →
  (∀ a st', m st = (Ok a, st') → I st' → I (k a st').2) →
  I (bind m k st).2.
Proof.
  intros Hm Hk. unfold bind. destruct (m st) as [[a|e] st']; [|done].
  by apply Hk.
Qed.

Lemma for_each_keeps {A} (I : state → Prop) (body : A → M unit)
    (l : list A) (st : state) :
  (∀ x st', x ∈ l → I st' → I (body x st').2) →
  I st → I (for_each body l st).2.
Proof.
  revert st. induction l as [|x l IH]; intros st Hbody Hst; [done|].
  cbn [for_each]. apply bind_keeps.
  - apply Hbody; [by left | done].
  - intros _ st' _ Hst'. apply IH; [|done].
    intros y st'' Hy. apply Hbody. by right.
Qed.

Lemma print_files (msg : message) (st : state) :
  files (print msg st).2 = files st.
Proof. done. Qed.

Lemma step_3_body_keeps (yaml_template note_path p : str) (st : state) :
  dom (files (step_3_body yaml_template note_path st).2) = dom (files st)
  ∧ (p ≠ note_path ∨ is_md note_path = false →
     files (step_3_body yaml_template note_path st).2 !! p = files st !! p).
Proof.
  unfold step_3_body. fold (is_md note_path).
  destruct (is_md note_path) eqn:Hmd; [|done].
  unfold bind, read, write.
  destruct (files st !! note_path) as [old|] eqn:Hold; [|done].
  cbn [snd files]. split.
  - rewrite dom_insert_L.
    assert (note_path ∈ dom (files st)) by by apply elem_of_dom.
    set_solver.
  - intros [Hne | ?]; [|done]. by rewrite lookup_insert_ne.
Qed.

Lemma step_4_body_keeps (resources_base : str) (note_files : list str)
    (entry : nat * str) (p : str) (st : state) :
  dom (files (step_4_body resources_base note_files entry st).2)
  = dom (files st)
  ∧ (p ≠ entry.2 →
     files (step_4_body resources_base note_files entry st).2 !! p
     = files st !! p).
Proof.
  unfold step_4_body, bind, read, write.
  destruct (files st !! entry.2) as [old|] eqn:Hold; [|done].
  cbn [snd files]. split.
  - rewrite dom_insert_L.
    assert (entry.2 ∈ dom (files st)) by by apply elem_of_dom.
    set_solver.
  - intros Hne. by rewrite lookup_insert_ne.
Qed.

(** An invariant of the state that [print] and the loop body keep is kept
    by [step_3], and likewise by [step_4]. *)
Lemma step_3_keeps (I : state → Prop) (note_files : list str)
    (metadata_path : str) (st : state) :
  (∀ msg st', I st' → I (print msg st').2) →
  (∀ T q st', q ∈ note_files → I st' → I (step_3_body T q st').2) →
  I st → I (step_3 note_files metadata_path st).2.
Proof.
  intros Hprint Hbody Hst. unfold step_3.
  apply bind_keeps; [by apply Hprint|]. intros _ st1 _ Hst1.
  apply bind_keeps.
  { unfold read. by destruct (files st1 !! metadata_path). }
  intros template st2 _ Hst2. apply bind_keeps.
  - apply for_each_keeps; [|done]. intros q st3. apply Hbody.
  - intros _ st3 _ Hst3. by apply Hprint.
Qed.

Lemma step_4_keeps (I : state → Prop) (note_files : list str)
    (resources_path : str) (st : state) :
  (∀ msg st', I st' → I (print msg st').2) →
  (∀ R entry st', entry.2 ∈ note_files → I st' →
                  I (step_4_body R note_files entry st').2) →
  I st → I (step_4 note_files resources_path st).2.
Proof.
  intros Hprint Hbody Hst. unfold step_4.
  apply bind_keeps; [by apply Hprint|]. intros _ st1 _ Hst1.
  apply bind_keeps.
  { unfold read. by destruct (files st1 !! resources_path). }
  intros template st2 _ Hst2. apply bind_keeps.
  - apply for_each_keeps; [|done]. intros [i q] st3 Hin. apply Hbody.
    apply enumerate_from_lookup in Hin as [_ Hin].
    by eapply list_elem_of_lookup_2.
  - intros _ st3 _ Hst3. apply bind_keeps; [by apply Hprint|].
    intros _ st4 _ Hst4. by apply Hprint.
Qed.

Lemma step_3_keeps_file (note_files : list str) (metadata_path p : str)
    (st : state) :
  p ∉ note_files ∨ is_md p = false →
  files (step_3 note_files metadata_path st).2 !! p = files st !! p.
Proof.
  intros Hp.
  apply (step_3_keeps (λ st', files st' !! p = files st !! p)); [done| |done].
  intros T q st' Hq <-. apply step_3_body_keeps.
  destruct Hp as [Hp | Hp]; [left; by intros -> |].
  destruct (decide (p = q)) as [->|]; [by right | by left].
Qed.

Lemma step_4_keeps_file (note_files : list str) (resources_path p : str)
    (st : state) :
  p ∉ note_files →
  files (step_4 note_files resources_path st).2 !! p = files st !! p.
Proof.
  intros Hp.
  apply (step_4_keeps (λ st', files st' !! p = files st !! p)); [done| |done].
  intros R entry st' Hq <-. apply step_4_body_keeps. by intros ->.
Qed.

(** X1: [step_3] and [step_4] create no file and delete none, and the only
    files whose content they change are listed notes, for [step_3] those
    whose path ends in [.md]; this holds when they return and when they
    raise. *)
Theorem later_stages_touch_listed_notes_only (note_files : list str)
    (template_path : str) (st : state) :
  (dom (files (step_3 note_files template_path st).2) = dom (files st)
   ∧ ∀ p, p ∉ note_files ∨ endswith (lower p) (py ".md") = false →
          files (step_3 note_files template_path st).2 !! p = files st !! p)
  ∧ (dom (files (step_4 note_files template_path st).2) = dom (files st)
     ∧ ∀ p, p ∉ note_files →
            files (step_4 note_files template_path st).2 !! p
            = files st !! p).
Proof.
  split_and!.
  - apply (step_3_keeps (λ st', dom (files st') = dom (files st)));
      [done| |done].
    intros T q st' _ <-. apply (step_3_body_keeps T q []).
  - intros p Hp. by apply step_3_keeps_file.
  - apply (step_4_keeps (λ st', dom (files st') = dom (files st)));
      [done| |done].
    intros R entry st' _ <-. apply (step_4_body_keeps R note_files entry []).
  - intros p Hp. by apply step_4_keeps_file.
Qed.

(** ** What [step_2] writes *)

Lemma step_2_missing (outfile_path outdir_path : str) (heading_lvl : Z)
    (st : state) :
  files st !! outfile_path = None →
  step_2 outfile_path outdir_path heading_lvl st
  = (Raise (FileNotFoundError outfile_path),
     State (files st) (console st ++ [Step2Splitting heading_lvl])).
Proof.
  intros Hnone. unfold step_2, bind, print, read. cbn [files console].
  by rewrite Hnone.
Qed.

(** X2: when [step_2] returns, the files it has created or overwritten
    are the paths it returns and no others: the files afterwards are those
    before and the returned paths, and every file that is not a returned
    path has the content it had. *)
Theorem step_2_writes_returned_paths_only (outfile_path outdir_path : str)
    (heading_lvl : Z) (st : state) (note_file_paths : list str)
    (st' : state) :
  step_2 outfile_path outdir_path heading_lvl st = (Ok note_file_paths, st') →
  dom (files st') = dom (files st) ∪ list_to_set note_file_paths
  ∧ ∀ p, p ∉ note_file_paths → files st' !! p = files st !! p.
Proof.
  destruct (files st !! outfile_path) as [document|] eqn:Hread.
  - rewrite (step_2_run _ _ _ _ _ Hread). intros [= <- <-]. cbn [files].
    split.
    + apply foldl_write_chunk_dom.
    + intros p Hp. by apply foldl_write_chunk_other.
  - by rewrite step_2_missing.
Qed.

Lemma step_2_writes_returned_paths_only_witness :
  let note_file_paths := [py "notes/A.md"; py "notes/B.md"] in
  let st' := (step_2 (py "book.md") (py "notes") 1 example_state).2 in
  dom (files st') = dom (files example_state) ∪ list_to_set note_file_paths
  ∧ ∀ p, p ∉ note_file_paths → files st' !! p = files example_state !! p.
Proof.
  apply (step_2_writes_returned_paths_only (py "book.md") (py "notes") 1
           example_state).
  by vm_compute.
Defined.

(** ** The first line of a chunk *)

(** X3: [step_2] never raises [IndexError]: every chunk starts at a
    heading line, so the line [chunk_lines[0]] that names the note always
    exists. *)
Theorem step_2_first_line_exists (outfile_path outdir_path : str)
    (heading_lvl : Z) (st : state) :
  (step_2 outfile_path outdir_path heading_lvl st).1 ≠ Raise IndexError.
Proof.
  destruct (files st !! outfile_path) as [document|] eqn:Hread.
  - by rewrite (step_2_run _ _ _ _ _ Hread).
  - by rewrite step_2_missing.
Qed.

(** ** What [main] leaves alone *)

Lemma chunk_path_is_md (outdir_path : str) (chunks : list (list str))
    (p : str) :
  p ∈ chunk_path outdir_path <$> chunks → is_md p = true.
Proof.
  intros (chunk & -> & _)%list_elem_of_fmap. apply note_file_path_of_is_md.
Qed.

(** A file that is not among the paths [step_2] returns is, after [main],
    as the conversion left it. *)
Lemma main_keeps_file
    (pandoc : str → str → str → gmap (list N) (list N) → gmap (list N) (list N))
    (a : args) (st : state) (p : str) :
  arg_step_1 a = false →
  (∀ note_files st',
     step_2 (arg_outfile a) (arg_outdir a) (arg_heading_level a)
       (converted pandoc a st) = (Ok note_files, st') →
     p ∉ note_files) →
  files (main pandoc a st).2 !! p = files (converted pandoc a st) !! p.
Proof.
  intros Hflag Hp. rewrite main_until_step_2 by done.
  set (st1 := converted pandoc a st) in *.
  apply (bind_keeps (λ st', files st' !! p = files st1 !! p)).
  - destruct (files st1 !! arg_outfile a) as [document|] eqn:Hread.
    + pose proof (step_2_run _ (arg_outdir a) (arg_heading_level a) _ _ Hread)
        as Hrun. cbn zeta in Hrun.
      specialize (Hp _ _ Hrun). rewrite Hrun. cbn [snd files].
      by apply foldl_write_chunk_other.
    + by rewrite step_2_missing.
  - intros [|note_file note_files] st2 Hrun Hst2; [done|].
    specialize (Hp _ _ Hrun).
    apply (bind_keeps (λ st', files st' !! p = files st1 !! p)).
    { rewrite <- Hst2. apply step_3_keeps_file. by left. }
    intros _ st3 _ Hst3.
    apply (bind_keeps (λ st', files st' !! p = files st1 !! p)); [|done].
    rewrite <- Hst3. by apply step_4_keeps_file.
Qed.

(** X4: after the conversion, [main] changes no file whose name does not
    end in [.md]: attachments, the source document and a metadata template
    in YAML are as the converter left them, whether [main] returns or
    raises. *)
Theorem main_writes_md_files_only
    (pandoc : str → str → str → gmap (list N) (list N) → gmap (list N) (list N))
    (a : args) (st : state) (p : str) :
  arg_step_1 a = false →
  endswith (lower p) (py ".md") = false →
  files (main pandoc a st).2 !! p = files (converted pandoc a st) !! p.
Proof.
  intros Hflag Hmd. apply main_keeps_file; [done|].
  intros note_files st' Hrun Hin.
  destruct (files (converted pandoc a st) !! arg_outfile a) as [document|]
    eqn:Hread.
  - rewrite (step_2_run _ _ _ _ _ Hread) in Hrun. injection Hrun as <- _.
    apply chunk_path_is_md in Hin. unfold is_md, md_ext in Hin. congruence.
  - by rewrite step_2_missing in Hrun.
Qed.

Lemma main_writes_md_files_only_witness :
  let a := Args (py "book.epub") (py "book.md") (py "attachments")
             (py "templates/metadata.yml") (py "templates/resources.md")
             (py "notes") 1 false true in
  files (main (λ _ _ _ fs, fs) a example_state).2 !! py "templates/metadata.yml"
  = files (converted (λ _ _ _ fs, fs) a example_state)
      !! py "templates/metadata.yml".
Proof.
  apply (main_writes_md_files_only (λ _ _ _ fs, fs)
           (Args (py "book.epub") (py "book.md") (py "attachments")
              (py "templates/metadata.yml") (py "templates/resources.md")
              (py "notes") 1 false true)
           example_state (py "templates/metadata.yml")).
  - reflexivity.
  - reflexivity.
Defined.

(** X5: when the combined document is readable, the only files [main]
    changes after the conversion are the notes of its heading lines: every
    other path, the combined document and the templates among them, keeps
    the content the converter left, whether [main] returns or raises. *)
Theorem main_changes_notes_only
    (pandoc : str → str → str → gmap (list N) (list N) → gmap (list N) (list N))
    (a : args) (st : state) (document p : str) :
  arg_step_1 a = false →
  files (converted pandoc a st) !! arg_outfile a = Some document →
  p ∉ note_file_path_of (arg_outdir a)
      <$> List.filter
            (λ line, startswith line (heading_prefix (arg_heading_level a)))
            (splitlines document) →
  files (main pandoc a st).2 !! p = files (converted pandoc a st) !! p.
Proof.
  intros Hflag Hread Hp. apply main_keeps_file; [done|].
  intros note_files st' Hrun.
  rewrite (step_2_run _ _ _ _ _ Hread) in Hrun. injection Hrun as <- _.
  by rewrite step_2_paths.
Qed.

Lemma main_changes_notes_only_witness :
  let a := Args (py "book.epub") (py "book.md") (py "attachments")
             (py "templates/metadata.yml") (py "templates/resources.md")
             (py "notes") 1 false true in
  files (main (λ _ _ _ fs, fs) a example_state).2 !! py "templates/resources.md"
  = files (converted (λ _ _ _ fs, fs) a example_state)
      !! py "templates/resources.md".
Proof.
  apply (main_changes_notes_only (λ _ _ _ fs, fs)
           (Args (py "book.epub") (py "book.md") (py "attachments")
              (py "templates/metadata.yml") (py "templates/resources.md")
              (py "notes") 1 false true)
           example_state example_document (py "templates/resources.md")).
  - reflexivity.
  - reflexivity.
  - apply (bool_decide_unpack _). by vm_compute.
Defined.

(** ** Failures leave what was done *)

Lemma for_each_app {A} (body : A → M unit) (l1 l2 : list A) (st : state) :
  for_each body (l1 ++ l2) st
  = (for_each body l1 >> for_each body l2) st.
Proof.
  revert st. induction l1 as [|x l1 IH]; intros st; [done|].
  cbn [app for_each]. unfold bind in *.
  destruct (body x st) as [[[]|e] st']; [|done]. by rewrite IH.
Qed.

(** X6: there is no rollback in [step_3]: at the first listed note that
    ends in [.md] and cannot be read it raises [FileNotFoundError] for that
    note; the notes listed before it have the metadata, once for each of
    their listings before it, and no other file has changed. *)
Theorem step_3_stops_at_missing_note (before after : list str)
    (missing metadata_path : str) (st : state) (template : str) :
  files st !! metadata_path = Some template →
  endswith (lower missing) (py ".md") = true →
  files st !! missing = None →
  (∀ p, p ∈ before → endswith (lower p) (py ".md") = true →
        is_Some (files st !! p)) →
  ∃ st',
    step_3 (before ++ missing :: after) metadata_path st
    = (Raise (FileNotFoundError missing), st')
    ∧ ∀ p, files st' !! p
           = Nat.iter (if endswith (lower p) (py ".md")
                       then occurrences p before else 0)
               (λ content, strip template ++ [LF; LF] ++ content)
             <$> files st !! p.
Proof.
  intros Htemplate Hmd Hmissing Hreadable.
  destruct (step_3_loop_run (strip template) before
              (State (files st) (console st ++ [Step3Prepending])))
    as (fs' & Hrun & Hfs'); [done|].
  exists (State fs' (console st ++ [Step3Prepending])). split; [|done].
  unfold step_3, bind at 1 2, print at 1, read. cbn [files console].
  rewrite Htemplate. unfold bind at 1. rewrite for_each_app.
  unfold bind at 1. rewrite Hrun. cbn [for_each].
  change (endswith (lower missing) md_ext = true) in Hmd.
  unfold bind at 1, step_3_body at 1. rewrite Hmd.
  unfold bind, read. cbn [files]. rewrite Hfs'. cbn [files].
  by rewrite Hmissing.
Qed.

Lemma step_3_stops_at_missing_note_witness :
  let st := State {[ py "metadata.yml" := example_metadata;
                     py "notes/A.md" := py "# A" ++ [LF] ]} [] in
  ∃ st',
    step_3 ([py "notes/A.md"] ++ py "notes/B.md" :: [py "notes/A.md"])
      (py "metadata.yml") st
    = (Raise (FileNotFoundError (py "notes/B.md")), st')
    ∧ ∀ p, files st' !! p
           = Nat.iter (if endswith (lower p) (py ".md")
                       then occurrences p [py "notes/A.md"] else 0)
               (λ content, strip example_metadata ++ [LF; LF] ++ content)
             <$> files st !! p.
Proof.
  apply (step_3_stops_at_missing_note [py "notes/A.md"] [py "notes/A.md"]
           (py "notes/B.md") (py "metadata.yml")
           (State {[ py "metadata.yml" := example_metadata;
                     py "notes/A.md" := py "# A" ++ [LF] ]} [])
           example_metadata).
  - reflexivity.
  - reflexivity.
  - reflexivity.
  - intros p Hp _. revert p Hp. listed_files_readable.
Defined.

(** X7: there is no rollback in [step_4] either: at the first listed note
    that cannot be read it raises [FileNotFoundError] for that note; the
    notes listed before it have their resources blocks, with the links a
    complete run would have written, and no other file has changed. *)
Theorem step_4_stops_at_missing_note (before after : list str)
    (missing resources_path : str) (st : state) (template : str) :
  files st !! resources_path = Some template →
  files st !! missing = None →
  (∀ p, p ∈ before → is_Some (files st !! p)) →
  let note_files := before ++ missing :: after in
  ∃ st',
    step_4 note_files resources_path st
    = (Raise (FileNotFoundError missing), st')
    ∧ ∀ p, files st' !! p
           = (λ old, old ++ concat ((λ i, [LF; LF]
                                          ++ resources_content_of
                                               (strip template) note_files i
                                          ++ [LF])
                                    <$> positions p before))
             <$> files st !! p.
Proof.
  intros Htemplate Hmissing Hreadable note_files.
  destruct (step_4_loop_run (strip template) note_files before 0
              (State (files st) (console st ++ [Step4Appending])))
    as (fs' & Hrun & Hfs'); [done|].
  exists (State fs' (console st ++ [Step4Appending])). split; [|done].
  unfold step_4, bind at 1 2, print at 1, read. cbn [files console].
  rewrite Htemplate. unfold bind at 1, enumerate, note_files.
  rewrite enumerate_from_app, for_each_app.
  unfold bind at 1. fold note_files. rewrite Hrun.
  cbn [enumerate_from for_each].
  unfold bind at 1, step_4_body at 1. cbn [fst snd].
  unfold bind, read. cbn [files]. rewrite Hfs'. cbn [files].
  by rewrite Hmissing.
Qed.

Lemma step_4_stops_at_missing_note_witness :
  let st := State {[ py "resources.md" := example_resources;
                     py "notes/A.md" := py "# A" ++ [LF] ]} [] in
  let note_files := [py "notes/A.md"] ++ py "notes/B.md" :: [] in
  ∃ st',
    step_4 note_files (py "resources.md") st
    = (Raise (FileNotFoundError (py "notes/B.md")), st')
    ∧ ∀ p, files st' !! p
           = (λ old, old ++ concat ((λ i, [LF; LF]
                                          ++ resources_content_of
                                               (strip example_resources)
                                               note_files i
                                          ++ [LF])
                                    <$> positions p [py "notes/A.md"]))
             <$> files st !! p.
Proof.
  apply (step_4_stops_at_missing_note [py "notes/A.md"] []
           (py "notes/B.md") (py "resources.md")
           (State {[ py "resources.md" := example_resources;
                     py "notes/A.md" := py "# A" ++ [LF] ]} [])
           example_resources).
  - reflexivity.
  - reflexivity.
  - listed_files_readable.
Defined.

(** X8: the exit status of the converter is not looked at, so a conversion
    that leaves no combined document is noticed by [step_2] only: [main]
    raises [FileNotFoundError] for the document and changes no file after
    the conversion. *)
Theorem main_stops_at_missing_document
    (pandoc : str → str → str → gmap (list N) (list N) → gmap (list N) (list N))
    (a : args) (st : state) :
  arg_step_1 a = false →
  files (converted pandoc a st) !! arg_outfile a = None →
  main pandoc a st
  = (Raise (FileNotFoundError (arg_outfile a)),
     State (files (converted pandoc a st))
           (console (converted pandoc a st)
            ++ [Step2Splitting (arg_heading_level a)])).
Proof.
  intros Hflag Hnone. rewrite main_until_step_2 by done.
  unfold bind. by rewrite step_2_missing.
Qed.

Lemma main_stops_at_missing_document_witness :
  let pandoc := λ _ _ _ (fs : gmap (list N) (list N)), fs in
  let a := Args (py "book.epub") (py "book.md") (py "attachments")
             (py "templates/metadata.yml") (py "templates/resources.md")
             (py "notes") 1 false false in
  let st := State {[ py "book.epub" := py "not an ePUB" ]} [] in
  main pandoc a st
  = (Raise (FileNotFoundError (arg_outfile a)),
     State (files (converted pandoc a st))
           (console (converted pandoc a st)
            ++ [Step2Splitting (arg_heading_level a)])).
Proof.
  apply (main_stops_at_missing_document (λ _ _ _ fs, fs)
           (Args (py "book.epub") (py "book.md") (py "attachments")
              (py "templates/metadata.yml") (py "templates/resources.md")
              (py "notes") 1 false false)
           (State {[ py "book.epub" := py "not an ePUB" ]} [])).
  - reflexivity.
  - reflexivity.
Defined.

(** X9: [main] reads a template only when its step starts, and what the
    earlier steps wrote stays: without a metadata template it raises
    [FileNotFoundError] for it and leaves the notes as [step_2] wrote them;
    without a resources template it raises for that one after [step_3] has
    returned, and leaves the notes with their metadata. *)
Theorem main_stops_at_missing_template
    (pandoc : str → str → str → gmap (list N) (list N) → gmap (list N) (list N))
    (a : args) (st : state) (document : str) :
  arg_step_1 a = false →
  files (converted pandoc a st) !! arg_outfile a = Some document →
  let note_files :=
    note_file_path_of (arg_outdir a)
    <$> List.filter
          (λ line, startswith line (heading_prefix (arg_heading_level a)))
          (splitlines document) in
  note_files ≠ [] →
  ∃ st2,
    step_2 (arg_outfile a) (arg_outdir a) (arg_heading_level a)
      (converted pandoc a st) = (Ok note_files, st2)
    ∧ (files (converted pandoc a st) !! arg_metadata a = None →
       arg_metadata a ∉ note_files →
       main pandoc a st
       = (Raise (FileNotFoundError (arg_metadata a)),
          State (files st2) (console st2 ++ [Step3Prepending])))
    ∧ (is_Some (files st2 !! arg_metadata a) →
       files (converted pandoc a st) !! arg_resources a = None →
       arg_resources a ∉ note_files →
       ∃ st3,
         step_3 note_files (arg_metadata a) st2 = (Ok (), st3)
         ∧ main pandoc a st
           = (Raise (FileNotFoundError (arg_resources a)),
              State (files st3) (console st3 ++ [Step4Appending]))).
Proof.
  intros Hflag Hread note_files Hsome.
  pose proof (step_2_run _ (arg_outdir a) (arg_heading_level a) _ _ Hread)
    as Hrun2.
  cbn zeta in Hrun2. rewrite step_2_paths in Hrun2. fold note_files in Hrun2.
  set (chunks := chunks_of _ _) in Hrun2.
  set (st2 := State (foldl _ _ _) _) in Hrun2.
  assert (∀ p, p ∉ note_files →
               files st2 !! p = files (converted pandoc a st) !! p) as Hother.
  { intros p Hp. apply foldl_write_chunk_other.
    unfold chunks. by rewrite step_2_paths. }
  assert (main pandoc a st
          = (step_3 note_files (arg_metadata a) >>
             step_4 note_files (arg_resources a) >>
             print PipelineComplete) st2) as Hmain.
  { rewrite main_until_step_2 by done. unfold bind at 1. rewrite Hrun2.
    by destruct note_files. }
  exists st2. split_and!; [done| |].
  - intros Hnone Hnotin. rewrite Hmain.
    unfold bind at 1, step_3, bind at 1 2, print at 1, read.
    cbn [files console]. by rewrite Hother, Hnone.
  - intros [metadata Hmetadata] Hnone Hnotin.
    destruct (step_3_run note_files (arg_metadata a) st2 metadata Hmetadata)
      as (fs3 & Hrun3 & Hfs3).
    { intros p Hp _. apply foldl_write_chunk_is_Some. right.
      unfold chunks. by rewrite step_2_paths. }
    eexists. split; [done|]. rewrite Hmain.
    unfold bind at 1. rewrite Hrun3.
    unfold bind at 1, step_4, bind at 1 2, print at 1, read.
    cbn [files console].
    assert (fs3 !! arg_resources a = None) as ->; [|done].
    rewrite Hfs3, Hother, Hnone; done.
Qed.

Lemma main_stops_at_missing_template_witness :
  let pandoc := λ _ _ _ (fs : gmap (list N) (list N)), fs in
  let a := Args (py "book.epub") (py "book.md") (py "attachments")
             (py "templates/metadata.yml") (py "templates/missing.md")
             (py "notes") 1 false true in
  let note_files :=
    note_file_path_of (arg_outdir a)
    <$> List.filter
          (λ line, startswith line (heading_prefix (arg_heading_level a)))
          (splitlines example_document) in
  ∃ st2,
    step_2 (arg_outfile a) (arg_outdir a) (arg_heading_level a)
      (converted pandoc a example_state) = (Ok note_files, st2)
    ∧ (files (converted pandoc a example_state) !! arg_metadata a = None →
       arg_metadata a ∉ note_files →
       main pandoc a example_state
       = (Raise (FileNotFoundError (arg_metadata a)),
          State (files st2) (console st2 ++ [Step3Prepending])))
    ∧ (is_Some (files st2 !! arg_metadata a) →
       files (converted pandoc a example_state) !! arg_resources a = None →
       arg_resources a ∉ note_files →
       ∃ st3,
         step_3 note_files (arg_metadata a) st2 = (Ok (), st3)
         ∧ main pandoc a example_state
           = (Raise (FileNotFoundError (arg_resources a)),
              State (files st3) (console st3 ++ [Step4Appending]))).
Proof.
  apply (main_stops_at_missing_template (λ _ _ _ fs, fs)
           (Args (py "book.epub") (py "book.md") (py "attachments")
              (py "templates/metadata.yml") (py "templates/missing.md")
              (py "notes") 1 false true)
           example_state example_document).
  - reflexivity.
  - reflexivity.
  - discriminate.
Defined.

(** The run of that witness: the notes have the metadata and no resources
    block. *)
Example missing_resources_run :
  let a := Args (py "book.epub") (py "book.md") (py "attachments")
             (py "templates/metadata.yml") (py "templates/missing.md")
             (py "notes") 1 false true in
  let run := main (λ _ _ _ fs, fs) a example_state in
  run.1 = Raise (FileNotFoundError (py "templates/missing.md"))
  ∧ files run.2 !! py "notes/A.md"
    = Some (py "---" ++ [LF] ++ py "tags: book" ++ [LF] ++ py "---"
            ++ [LF; LF] ++ py "# A" ++ [LF] ++ py "foo" ++ [LF]).
Proof. split; by vm_compute. Qed.

(** ** Names, paths and links *)

(** X10: whatever the heading line, its note is a file of the output
    directory itself: the path is the directory, a slash unless the
    directory is empty or ends in one, and the file name; the file name is
    the sanitized heading followed by [.md] and holds no slash and no other
    character that [step_2] removes. *)
Theorem note_file_path_in_outdir (outdir_path heading_line : str) :
  let name := safe_heading_of heading_line ++ py ".md" in
  note_file_path_of outdir_path heading_line
  = outdir_path
    ++ (if bool_decide (outdir_path = []) || endswith outdir_path [SLASH]
        then [] else [SLASH])
    ++ name
  ∧ os_path_basename (note_file_path_of outdir_path heading_line) = name
  ∧ ∀ c, c ∈ [92; 47; 42; 63; 58; 34; 60; 62; 124] → c ∉ name.
Proof.
  intros name.
  assert (∀ c, c ∈ [92; 47; 42; 63; 58; 34; 60; 62; 124] → c ∉ name)
    as Hlegal.
  { intros c Hc. unfold name. rewrite elem_of_app. intros [Hin | Hin].
    - revert Hin. apply safe_heading_of_legal.
      repeat (apply elem_of_cons in Hc as [-> | Hc]; [done|]).
      by apply elem_of_nil in Hc.
    - apply not_in_md_ext in Hin as [-> | [-> | ->]];
        repeat (apply elem_of_cons in Hc as [[=] | Hc]);
        by apply elem_of_nil in Hc. }
  assert (SLASH ∉ name) as Hslash.
  { apply Hlegal. by right; left. }
  split_and!; [|by apply os_path_basename_join|done].
  unfold note_file_path_of, os_path_join.
  change (safe_heading_of heading_line ++ md_ext) with name.
  destruct (startswith name [SLASH]) eqn:Hstart.
  { apply startswith_app in Hstart as [rest Hrest]. destruct Hslash.
    rewrite Hrest. by left. }
  destruct (bool_decide (outdir_path = []) || endswith outdir_path [SLASH]);
    reflexivity.
Qed.

Lemma lstrip_if_hashes (n : nat) (rest : str) :
  lstrip_if (N.eqb HASH) (replicate n HASH ++ SPACE :: rest) = SPACE :: rest.
Proof. induction n as [|n IH]; [done|]. simpl. by rewrite IH. Qed.

(** X11: the name of a note is made of the text that follows the depth-L
    prefix on its heading line, and of nothing else: that text with the
    white space around it and the characters illegal in file names
    removed. *)
Theorem safe_heading_of_title (heading_lvl : Z) (title : str) :
  safe_heading_of (heading_prefix heading_lvl ++ title)
  = sanitize (strip title).
Proof.
  unfold safe_heading_of, heading_prefix, times.
  rewrite <- app_assoc. cbn [app]. rewrite lstrip_if_hashes.
  done.
Qed.

(** The link to a note that is the image of an item of a list. *)
Lemma next_note_link_of_fmap {A} (f : A → str) (l : list A) (i : nat) :
  next_note_link_of (f <$> l) i
  = match l !! S i with
    | Some next =>
        py "[[" ++ (os_path_splitext (os_path_basename (f next))).1 ++ py "]]"
    | None => py "N/A"
    end.
Proof.
  rewrite next_note_link_of_lookup, list_lookup_fmap.
  by destruct (l !! S i).
Qed.

(** The name that a link shows for a note of [step_2]. *)
Lemma link_name_of_heading (outdir_path heading_line : str) :
  (os_path_splitext
     (os_path_basename (note_file_path_of outdir_path heading_line))).1
  = if existsb (λ c, negb (c =? DOT)) (safe_heading_of heading_line)
    then safe_heading_of heading_line
    else safe_heading_of heading_line ++ md_ext.
Proof.
  unfold note_file_path_of.
  assert (SLASH ∉ safe_heading_of heading_line) as Hslash
    by by apply safe_heading_of_legal.
  rewrite os_path_basename_join.
  2:{ rewrite elem_of_app. intros [Hin | Hin]; [done|].
      by apply not_in_md_ext in Hin as [[=] | [[=] | [=]]]. }
  rewrite os_path_splitext_note_name by done.
  by destruct (existsb _ _).
Qed.

(** X12: the link that [step_4] writes to the notes of [step_2]: for the
    note of the heading line at position [i], the wiki-link around the
    sanitized heading of the heading line at position [i + 1]; when that
    heading sanitizes to nothing or to dots only, the link keeps the
    extension [.md] after it; for the last heading line, the sentinel. *)
Theorem next_note_link_of_headings (outdir_path : str) (headings : list str)
    (i : nat) :
  next_note_link_of (note_file_path_of outdir_path <$> headings) i
  = match headings !! S i with
    | Some next_heading =>
        py "[["
        ++ (if existsb (λ c, negb (c =? DOT)) (safe_heading_of next_heading)
            then safe_heading_of next_heading
            else safe_heading_of next_heading ++ py ".md")
        ++ py "]]"
    | None => py "N/A"
    end.
Proof.
  rewrite next_note_link_of_fmap.
  destruct (headings !! S i) as [next_heading|]; [|done].
  by rewrite link_name_of_heading.
Qed.

(** ** No placeholder is left *)

Lemma startswith_app_cases (a b p : str) :
  startswith (a ++ b) p = true →
  startswith a p = true ∨ ∃ q, p = a ++ q ∧ q ≠ [] ∧ startswith b q = true.
Proof.
  revert p. induction a as [|c a IH]; intros p Hp.
  - destruct p as [|d p]; [by left|]. right. by exists (d :: p).
  - destruct p as [|d p]; [by left|]. cbn [app startswith] in *.
    apply andb_true_iff in Hp as [Hc Hp]. rewrite Hc. cbn [andb].
    apply N.eqb_eq in Hc as ->.
    destruct (IH p Hp) as [Hleft | (q & -> & Hq & Hb)]; [by left|].
    right. by exists q.
Qed.

Lemma occurs_cons (text : str) (c : char) (s : str) :
  occurs text (c :: s) = startswith (c :: s) text || occurs text s.
Proof. done. Qed.

Lemma occurs_app_link (text link rest : str) :
  apart_from text link →
  occurs text rest = false →
  occurs text (link ++ rest) = false.
Proof.
  intros [Hfirst _] Hrest. destruct text as [|first text].
  { by destruct rest. }
  specialize (Hfirst first text eq_refl).
  induction link as [|c link IH]; [done|].
  apply not_elem_of_cons in Hfirst as [Hne Hfirst].
  cbn [app]. rewrite occurs_cons, IH by done. cbn [startswith].
  by rewrite (proj2 (N.eqb_neq c first)) by done.
Qed.

Lemma occurs_segment_link (text segment link rest : str) :
  apart_from text link →
  occurs text segment = false →
  occurs text rest = false →
  occurs text (segment ++ link ++ rest) = false.
Proof.
  intros Hapart Hsegment Hrest.
  induction segment as [|c segment IH]; [cbn [app]; apply occurs_app_link; assumption|].
  rewrite occurs_cons in Hsegment.
  apply orb_false_iff in Hsegment as [Hhere Hlater].
  cbn [app]. rewrite occurs_cons, IH by done. rewrite orb_false_r.
  destruct (startswith (c :: segment ++ link ++ rest) text) eqn:Hstart;
    [|done].
  apply (startswith_app_cases (c :: segment)) in Hstart
    as [Hstart | (q & -> & Hq & Hstart)]; [congruence|].
  destruct Hapart as [_ Hapart].
  destruct (Hapart (length (c :: segment))) as [Hlink Hq'].
  { rewrite length_app. destruct q; [done|]. cbn [length]. lia. }
  rewrite drop_app_length in Hlink, Hq'.
  apply startswith_app_cases in Hstart as [Hstart | (q' & -> & _ & _)];
    [congruence|].
  by rewrite startswith_refl_app in Hq'.
Qed.

Lemma occurs_join_link (text link : str) (segments : list str) :
  apart_from text link →
  Forall (λ segment, occurs text segment = false) segments →
  segments ≠ [] →
  occurs text (join link segments) = false.
Proof.
  intros Hapart Hfree.
  induction Hfree as [|segment segments Hsegment _ IH]; [done|]. intros _.
  destruct segments as [|next segments]; [done|].
  rewrite join_cons by done. apply occurs_segment_link; [done..|].
  by apply IH.
Qed.

Lemma apart_from_sentinel : apart_from NEXT_NOTE_LINK (py "N/A").
Proof.
  split.
  - intros first rest [= <- _]. apply (bool_decide_unpack _). by vm_compute.
  - intros k Hk. do 16 (destruct k as [|k]; [by vm_compute || lia|]).
    cbn in Hk. lia.
Qed.

Lemma apart_from_wiki_link (name : str) :
  60 ∉ name → apart_from NEXT_NOTE_LINK (py "[[" ++ name ++ py "]]").
Proof.
  intros Hname. split.
  - intros first rest [= <- _]. rewrite !elem_of_app.
    intros [Hin | [Hin | Hin]]; [|done|];
      by repeat (apply elem_of_cons in Hin as [[=] | Hin]);
        apply elem_of_nil in Hin.
  - intros k Hk. do 16 (destruct k as [|k]; [by vm_compute || lia|]).
    cbn in Hk. lia.
Qed.

Lemma next_note_link_of_notes_apart (outdir_path : str) (headings : list str)
    (i : nat) :
  apart_from NEXT_NOTE_LINK
    (next_note_link_of (note_file_path_of outdir_path <$> headings) i).
Proof.
  rewrite next_note_link_of_fmap.
  destruct (headings !! S i) as [next_heading|]; [|apply apart_from_sentinel].
  rewrite link_name_of_heading. apply apart_from_wiki_link.
  assert (60 ∉ safe_heading_of next_heading) as Hname
    by by apply safe_heading_of_legal.
  destruct (existsb _ _); [done|].
  rewrite elem_of_app. intros [Hin | Hin]; [done|].
  by apply not_in_md_ext in Hin as [[=] | [[=] | [=]]].
Qed.

(** X13: for the notes of [step_2], whatever the resources template, the
    text that [step_4] appends holds no placeholder any more: a sanitized
    heading has no [<], so neither a link nor the sentinel can bring one
    back or complete one with the text around it. *)
Theorem no_placeholder_left (resources_base outdir_path : str)
    (headings : list str) (i : nat) :
  occurs (py "<NEXT_NOTE_LINK>")
    (resources_content_of resources_base
       (note_file_path_of outdir_path <$> headings) i)
  = false.
Proof.
  unfold resources_content_of.
  destruct (replace_segments NEXT_NOTE_LINK resources_base)
    as (segments & Hne & _ & Hfree & Hreplace); [done|].
  rewrite Hreplace.
  apply occurs_join_link; [apply next_note_link_of_notes_apart|done..].
Qed.

(** For other lists of notes a placeholder can come back with a link. *)
Example placeholder_in_a_link :
  resources_content_of (py "Next: <NEXT_NOTE_LINK>")
    [py "a.md"; py "<NEXT_NOTE_LINK>.md"] 0
  = py "Next: [[<NEXT_NOTE_LINK>]]".
Proof. by vm_compute. Qed.

(** ** A template without placeholder *)

Lemma replace_absent (o : char) (old new s : str) :
  occurs (o :: old) s = false → replace (o :: old) new s = s.
Proof.
  induction s as [|c s IH]; intros Hfree; [by simp replace|].
  rewrite occurs_cons in Hfree.
  apply orb_false_iff in Hfree as [Hhere Hlater].
  by rewrite replace_cons, Hhere, IH.
Qed.

Lemma fmap_const_replicate {A B} (b : B) (l : list A) :
  (λ _, b) <$> l = replicate (length l) b.
Proof. induction l as [|x l IH]; [done|]. cbn. by rewrite IH. Qed.

(** X14: a resources template that does not hold the placeholder is
    appended as it is, stripped, with no link: every listed note gets the
    same block, once for each time it is listed. *)
Theorem step_4_without_placeholder (note_files : list str)
    (resources_path : str) (st : state) (template : str) :
  files st !! resources_path = Some template →
  occurs (py "<NEXT_NOTE_LINK>") (strip template) = false →
  (∀ p, p ∈ note_files → is_Some (files st !! p)) →
  ∃ st',
    step_4 note_files resources_path st = (Ok (), st')
    ∧ ∀ p old,
        p ∈ note_files →
        files st !! p = Some old →
        files st' !! p
        = Some (old ++ concat (replicate (occurrences p note_files)
                                 ([LF; LF] ++ strip template ++ [LF]))).
Proof.
  intros Htemplate Hfree Hreadable.
  destruct (step_4_run note_files resources_path st template Htemplate
              Hreadable) as (fs' & Hrun & Hfs').
  eexists. split; [done|]. intros p old Hp Hold. cbn [files].
  rewrite Hfs', Hold. cbn [fmap option_fmap option_map]. do 3 f_equal.
  rewrite <- (positions_from_length 0), <- fmap_const_replicate.
  apply list_fmap_ext. intros _ i _.
  unfold resources_block, resources_content_of, blank_line.
  by rewrite (replace_absent 60 (py "NEXT_NOTE_LINK>")).
Qed.

Lemma step_4_without_placeholder_witness :
  let note_files := [py "notes/A.md"; py "notes/B.md"] in
  let template := py "See the index." ++ [LF] in
  let st := State {[ py "resources.md" := template;
                     py "notes/A.md" := py "# A" ++ [LF];
                     py "notes/B.md" := py "# B" ++ [LF] ]} [] in
  ∃ st',
    step_4 note_files (py "resources.md") st = (Ok (), st')
    ∧ ∀ p old,
        p ∈ note_files →
        files st !! p = Some old →
        files st' !! p
        = Some (old ++ concat (replicate (occurrences p note_files)
                                 ([LF; LF] ++ strip template ++ [LF]))).
Proof.
  apply (step_4_without_placeholder [py "notes/A.md"; py "notes/B.md"]
           (py "resources.md")
           (State {[ py "resources.md" := py "See the index." ++ [LF];
                     py "notes/A.md" := py "# A" ++ [LF];
                     py "notes/B.md" := py "# B" ++ [LF] ]} [])
           (py "See the index." ++ [LF])).
  - reflexivity.
  - by vm_compute.
  - listed_files_readable.
Defined.

(** ** Notes read back *)

Lemma splitlines_line (line rest : str) :
  Forall (λ c, islinebreak c = false) line →
  splitlines (line ++ LF :: rest) = line :: splitlines rest.
Proof.
  induction 1 as [|c line Hc _ IH]; cbn [app].
  - by destruct rest.
  - cbn [splitlines]. by rewrite Hc, IH.
Qed.

Lemma splitlines_join (lines : list str) :
  lines ≠ [] →
  Forall (Forall (λ c, islinebreak c = false)) lines →
  splitlines (join [LF] lines ++ [LF]) = lines.
Proof.
  intros Hne Hlines. induction Hlines as [|line lines Hline _ IH]; [done|].
  destruct lines as [|next lines].
  - cbn [join]. by rewrite splitlines_line.
  - rewrite join_cons by done. rewrite <- !app_assoc. cbn [app].
    rewrite splitlines_line by done. by rewrite IH.
Qed.

Lemma spec_split_chunk (is_heading : str → bool) (heading : str)
    (body : list str) :
  is_heading heading = true →
  Forall (λ line, is_heading line = false) body →
  spec_split is_heading (heading :: body) = ([], [heading :: body]).
Proof.
  intros Hheading Hbody. cbn [spec_split]. rewrite Hheading.
  assert (spec_split is_heading body = (body, [])) as ->; [|done].
  induction Hbody as [|line body Hline _ IH]; [done|].
  cbn [spec_split]. by rewrite Hline, IH.
Qed.

Lemma chunks_of_document (document : str) (heading_lvl : Z)
    (chunk_lines : list str) :
  chunk_lines ∈ chunks_of (splitlines document)
                  (split_indices_of (splitlines document)
                     (heading_prefix heading_lvl)) →
  well_formed_chunk (λ line, startswith line (heading_prefix heading_lvl))
    chunk_lines
  ∧ Forall (Forall (λ c, islinebreak c = false)) chunk_lines.
Proof.
  rewrite chunks_of_spec. intros Hin.
  set (is_heading := λ line, startswith line (heading_prefix heading_lvl)) in *.
  split.
  - pose proof (spec_split_chunks is_heading (splitlines document)) as Hwf.
    rewrite Forall_forall in Hwf. by apply Hwf.
  - pose proof (splitlines_no_linebreak document) as Hno.
    rewrite (spec_split_app is_heading (splitlines document)) in Hno.
    apply Forall_app in Hno as [_ Hno].
    apply (proj1 (List.Forall_concat
                    (Forall (λ c, islinebreak c = false)) _)) in Hno.
    rewrite Forall_forall in Hno. by apply Hno.
Qed.

(** X15: a note that [step_2] has written reads back as its chunk, line by
    line, and splitting that note again, at the same level and into the
    same directory, returns its path alone and changes no file. *)
Theorem resplitting_a_note_changes_nothing (document outdir_path : str)
    (heading_lvl : Z) (chunk_lines : list str) (st : state) :
  chunk_lines ∈ chunks_of (splitlines document)
                  (split_indices_of (splitlines document)
                     (heading_prefix heading_lvl)) →
  files st !! chunk_path outdir_path chunk_lines
  = Some (join [LF] chunk_lines ++ [LF]) →
  splitlines (join [LF] chunk_lines ++ [LF]) = chunk_lines
  ∧ step_2 (chunk_path outdir_path chunk_lines) outdir_path heading_lvl st
    = (Ok [chunk_path outdir_path chunk_lines],
       State (files st)
             (console st ++ [Step2Splitting heading_lvl; Step2Done 1])).
Proof.
  intros Hin Hnote.
  apply chunks_of_document in Hin
    as [(heading & body & -> & Hheading & Hbody) Hno].
  assert (splitlines (join [LF] (heading :: body) ++ [LF]) = heading :: body)
    as Hback by by apply splitlines_join.
  split; [done|].
  rewrite (step_2_run _ _ _ _ _ Hnote). cbn zeta.
  rewrite Hback, chunks_of_spec, spec_split_chunk by done.
  cbn [snd fmap list_fmap foldl length step_2_report].
  unfold write_chunk, chunk_content. by rewrite insert_id.
Qed.

Lemma resplitting_a_note_changes_nothing_witness :
  let st := State {[ py "notes/A.md" := py "# A" ++ [LF] ++ py "foo" ++ [LF] ]}
              [] in
  splitlines (join [LF] [py "# A"; py "foo"] ++ [LF]) = [py "# A"; py "foo"]
  ∧ step_2 (chunk_path (py "notes") [py "# A"; py "foo"]) (py "notes") 1 st
    = (Ok [chunk_path (py "notes") [py "# A"; py "foo"]],
       State (files st) (console st ++ [Step2Splitting 1; Step2Done 1])).
Proof.
  apply (resplitting_a_note_changes_nothing example_document (py "notes") 1
           [py "# A"; py "foo"]
           (State {[ py "notes/A.md" := py "# A" ++ [LF] ++ py "foo" ++ [LF] ]}
              [])).
  - apply (bool_decide_unpack _). by vm_compute.
  - reflexivity.
Defined.

(** ** Notes with names of their own *)

Lemma foldl_write_chunk_NoDup (outdir_path : str)
    (fs : gmap (list N) (list N)) (chunks : list (list str)) (i : nat)
    (chunk : list str) :
  NoDup (chunk_path outdir_path <$> chunks) →
  chunks !! i = Some chunk →
  foldl (write_chunk outdir_path) fs chunks !! chunk_path outdir_path chunk
  = Some (chunk_content chunk).
Proof.
  intros Hnodup Hi.
  rewrite <- (take_drop_middle chunks i chunk Hi) in Hnodup |- *.
  apply foldl_write_chunk_last.
  rewrite fmap_app in Hnodup. apply NoDup_app in Hnodup as (_ & _ & Hnodup).
  cbn [fmap list_fmap] in Hnodup. apply NoDup_cons in Hnodup as [Hnotin _].
  apply Forall_forall. intros later Hlater Heq. apply Hnotin.
  rewrite <- Heq. apply list_elem_of_fmap. by exists later.
Qed.

Lemma join_app (sep : str) (l1 l2 : list str) :
  l1 ≠ [] → l2 ≠ [] →
  join sep (l1 ++ l2) = join sep l1 ++ sep ++ join sep l2.
Proof.
  intros Hl1 Hl2. induction l1 as [|x l1 IH]; [done|].
  destruct l1 as [|y l1].
  - cbn [app]. by rewrite join_cons.
  - cbn [app] in *. rewrite (join_cons _ x) by done.
    rewrite IH by done. rewrite (join_cons _ x (y :: l1)) by done.
    by rewrite <- !app_assoc.
Qed.

Lemma concat_chunk_content (chunks : list (list str)) :
  chunks ≠ [] →
  Forall (λ chunk, chunk ≠ []) chunks →
  concat (chunk_content <$> chunks) = join [LF] (concat chunks) ++ [LF].
Proof.
  intros Hne Hchunks. induction Hchunks as [|chunk chunks Hchunk Hrest IH];
    [done|].
  destruct chunks as [|next chunks].
  - cbn. by rewrite !app_nil_r.
  - cbn [fmap list_fmap concat] in *. rewrite IH by done.
    rewrite (join_app _ chunk).
    + unfold chunk_content. by rewrite <- !app_assoc.
    + done.
    + apply Forall_cons in Hrest as [Hnext _]. by destruct next.
Qed.

(** X16: when no two heading lines give the same path, the notes that
    [step_2] leaves, read in the order of the returned list and put end to
    end, are the document from its first heading line on, with every line
    ended by a newline: nothing after the first heading line is lost or
    written twice. *)
Theorem notes_put_together (outfile_path outdir_path : str) (heading_lvl : Z)
    (st : state) (document : str) (first : nat) :
  files st !! outfile_path = Some document →
  let lines := splitlines document in
  let split_indices := split_indices_of lines (heading_prefix heading_lvl) in
  let chunks := chunks_of lines split_indices in
  head split_indices = Some first →
  NoDup (chunk_path outdir_path <$> chunks) →
  ∃ note_file_paths st' contents,
    step_2 outfile_path outdir_path heading_lvl st = (Ok note_file_paths, st')
    ∧ (λ p, files st' !! p) <$> note_file_paths = Some <$> contents
    ∧ concat contents = join [LF] (drop first lines) ++ [LF].
Proof.
  intros Hread lines split_indices chunks Hfirst Hnodup.
  exists (chunk_path outdir_path <$> chunks). eexists.
  exists (chunk_content <$> chunks).
  split_and!; [by apply step_2_run|..].
  - cbn [files]. fold lines split_indices chunks.
    rewrite <- !list_fmap_compose. apply list_fmap_ext. intros i chunk Hi.
    cbn. by apply (foldl_write_chunk_NoDup _ _ _ i).
  - set (is_heading := λ line, startswith line (heading_prefix heading_lvl)).
    pose proof (spec_split_app is_heading lines) as Happ.
    pose proof (first_split_index lines (heading_prefix heading_lvl)) as Hhd.
    fold split_indices is_heading in Hhd.
    assert (chunks = (spec_split is_heading lines).2) as Hspec
      by apply chunks_of_spec.
    rewrite <- Hspec in Happ.
    assert (first = length (spec_split is_heading lines).1) as ->.
    { destruct split_indices; simplify_eq/=. done. }
    assert (drop (length (spec_split is_heading lines).1) lines
            = concat chunks) as ->.
    { transitivity (drop (length (spec_split is_heading lines).1)
                      ((spec_split is_heading lines).1 ++ concat chunks));
        [by rewrite <- Happ | apply drop_app_length]. }
    apply concat_chunk_content; [|apply chunks_nonempty].
    unfold chunks, chunks_of, enumerate. by destruct split_indices.
Qed.

Lemma notes_put_together_witness :
  let document := py "preface" ++ [LF] ++ example_document in
  let st := State {[ py "book.md" := document ]} [] in
  ∃ note_file_paths st' contents,
    step_2 (py "book.md") (py "notes") 1 st = (Ok note_file_paths, st')
    ∧ (λ p, files st' !! p) <$> note_file_paths = Some <$> contents
    ∧ concat contents = join [LF] (drop 1 (splitlines document)) ++ [LF].
Proof.
  apply (notes_put_together (py "book.md") (py "notes") 1
           (State {[ py "book.md" := py "preface" ++ [LF] ++ example_document ]}
              [])
           (py "preface" ++ [LF] ++ example_document) 1).
  - reflexivity.
  - reflexivity.
  - apply (bool_decide_unpack _). by vm_compute.
Defined.

Lemma positions_from_absent (n : nat) (x : str) (l : list str) :
  x ∉ l → positions_from n x l = [].
Proof.
  revert n. induction l as [|y l IH]; intros n Hx; [done|].
  apply not_elem_of_cons in Hx as [Hne Hx].
  rewrite positions_from_cons. case_decide; [congruence | by apply IH].
Qed.

Lemma positions_from_NoDup (n : nat) (x : str) (l : list str) (i : nat) :
  NoDup l → l !! i = Some x → positions_from n x l = [(n + i)%nat].
Proof.
  revert n i. induction l as [|y l IH]; intros n i Hnodup Hi; [done|].
  apply NoDup_cons in Hnodup as [Hy Hnodup].
  rewrite positions_from_cons. destruct i as [|i]; cbn in Hi.
  - injection Hi as ->. rewrite decide_True by done.
    rewrite positions_from_absent by done. by rewrite Nat.add_0_r.
  - rewrite decide_False.
    + rewrite (IH (S n) i) by done. f_equal. lia.
    + intros ->. apply Hy. by eapply list_elem_of_lookup_2.
Qed.

(** X17: the whole pipeline on a document whose heading lines give paths
    that differ from each other and from the two templates: [main]
    returns, and the note of each chunk holds the stripped metadata, a
    blank line, the lines of the chunk with a newline after each, a blank
    line, and the stripped resources template in which the placeholder is
    the link to the sanitized heading of the next chunk, or the sentinel
    for the last chunk, and a final newline. *)
Theorem main_distinct_headings
    (pandoc : str → str → str → gmap (list N) (list N) → gmap (list N) (list N))
    (a : args) (st : state) (document metadata resources : str) :
  arg_step_1 a = false →
  files (converted pandoc a st) !! arg_outfile a = Some document →
  files (converted pandoc a st) !! arg_metadata a = Some metadata →
  files (converted pandoc a st) !! arg_resources a = Some resources →
  let lines := splitlines document in
  let chunks :=
    chunks_of lines
      (split_indices_of lines (heading_prefix (arg_heading_level a))) in
  let note_files := chunk_path (arg_outdir a) <$> chunks in
  chunks ≠ [] →
  NoDup note_files →
  arg_metadata a ∉ note_files →
  arg_resources a ∉ note_files →
  ∃ st',
    main pandoc a st = (Ok (), st')
    ∧ ∀ i chunk_lines,
        chunks !! i = Some chunk_lines →
        let link :=
          match chunks !! S i with
          | Some next_chunk =>
              let name := safe_heading_of (hd [] next_chunk) in
              py "[["
              ++ (if existsb (λ c, negb (c =? DOT)) name
                  then name else name ++ py ".md")
              ++ py "]]"
          | None => py "N/A"
          end in
        files st' !! chunk_path (arg_outdir a) chunk_lines
        = Some (strip metadata ++ [LF; LF]
                ++ (join [LF] chunk_lines ++ [LF])
                ++ [LF; LF]
                ++ replace (py "<NEXT_NOTE_LINK>") link (strip resources)
                ++ [LF]).
Proof.
  intros Hflag Hdocument Hmetadata Hresources lines chunks note_files
    Hsome Hnodup Hnot_metadata Hnot_resources.
  pose proof (step_2_run (arg_outfile a) (arg_outdir a) (arg_heading_level a)
                _ _ Hdocument) as Hrun2.
  cbn zeta in Hrun2. fold lines chunks note_files in Hrun2.
  set (st2 := State (foldl _ _ _) _) in Hrun2.
  assert (∀ p, p ∉ note_files →
               files st2 !! p = files (converted pandoc a st) !! p) as Hother.
  { intros p Hp. by apply foldl_write_chunk_other. }
  assert (files st2 !! arg_metadata a = Some metadata) as Hmetadata2
    by by rewrite Hother.
  destruct (step_3_run note_files (arg_metadata a) st2 metadata Hmetadata2)
    as (fs3 & Hrun3 & Hfs3).
  { intros p Hp _. apply foldl_write_chunk_is_Some. by right. }
  set (st3 := State fs3 _) in Hrun3.
  assert (files st3 !! arg_resources a = Some resources) as Hresources3.
  { cbn [st3 files]. rewrite Hfs3, Hother, Hresources by done.
    rewrite <- (positions_from_length 0), positions_from_absent by done.
    by destruct (is_md _). }
  destruct (step_4_run note_files (arg_resources a) st3 resources Hresources3)
    as (fs4 & Hrun4 & Hfs4).
  { intros p Hp. cbn [st3 files]. rewrite Hfs3.
    destruct (foldl_write_chunk_is_Some (arg_outdir a)
                (files (converted pandoc a st)) chunks p) as [c Hc];
      [by right|].
    cbn [st2 files]. rewrite Hc. by eexists. }
  set (st4 := State fs4 _) in Hrun4.
  exists (State (files st4) (console st4 ++ [PipelineComplete])). split.
  - rewrite main_until_step_2 by done. unfold bind at 1. rewrite Hrun2.
    destruct note_files as [|note_file rest] eqn:Hnotes.
    { apply fmap_nil_inv in Hnotes. done. }
    unfold bind at 1. rewrite Hrun3. unfold bind at 1. by rewrite Hrun4.
  - intros i chunk_lines Hi link. cbn [st4 files].
    assert (note_files !! i = Some (chunk_path (arg_outdir a) chunk_lines))
      as Hpath by (unfold note_files; by rewrite list_lookup_fmap, Hi).
    assert (chunk_path (arg_outdir a) chunk_lines ∈ note_files) as Hin
      by by eapply list_elem_of_lookup_2.
    rewrite Hfs4. cbn [st3 files]. rewrite Hfs3. cbn [st2 files].
    rewrite (foldl_write_chunk_NoDup _ _ _ i) by done.
    rewrite (chunk_path_is_md (arg_outdir a) chunks) by done.
    replace (occurrences (chunk_path (arg_outdir a) chunk_lines) note_files)
      with 1%nat.
    2:{ rewrite <- (positions_from_length 0).
        by rewrite (positions_from_NoDup 0 _ _ i). }
    unfold positions. change (enumerate note_files)
      with (enumerate_from 0 note_files).
    fold (positions_from 0 (chunk_path (arg_outdir a) chunk_lines) note_files).
    rewrite (positions_from_NoDup 0 _ _ i) by done.
    cbn [fmap option_fmap option_map list_fmap concat Nat.iter nat_rect
           Nat.add].
    unfold prepend_metadata, resources_block, resources_content_of,
      chunk_content, blank_line.
    rewrite app_nil_r.
    assert (next_note_link_of note_files i = link) as ->.
    { unfold note_files. rewrite next_note_link_of_fmap. unfold link.
      destruct (chunks !! S i) as [next_chunk|]; [|done].
      unfold chunk_path. by rewrite link_name_of_heading. }
    by rewrite <- !app_assoc.
Qed.

Lemma main_distinct_headings_witness :
  let pandoc := λ _ _ _ (fs : gmap (list N) (list N)), fs in
  let a := Args (py "book.epub") (py "book.md") (py "attachments")
             (py "templates/metadata.yml") (py "templates/resources.md")
             (py "notes") 1 false true in
  let chunks :=
    chunks_of (splitlines example_document)
      (split_indices_of (splitlines example_document)
         (heading_prefix (arg_heading_level a))) in
  ∃ st',
    main pandoc a example_state = (Ok (), st')
    ∧ ∀ i chunk_lines,
        chunks !! i = Some chunk_lines →
        let link :=
          match chunks !! S i with
          | Some next_chunk =>
              let name := safe_heading_of (hd [] next_chunk) in
              py "[["
              ++ (if existsb (λ c, negb (c =? DOT)) name
                  then name else name ++ py ".md")
              ++ py "]]"
          | None => py "N/A"
          end in
        files st' !! chunk_path (arg_outdir a) chunk_lines
        = Some (strip example_metadata ++ [LF; LF]
                ++ (join [LF] chunk_lines ++ [LF])
                ++ [LF; LF]
                ++ replace (py "<NEXT_NOTE_LINK>") link
                     (strip example_resources)
                ++ [LF]).
Proof.
  apply (main_distinct_headings (λ _ _ _ fs, fs)
           (Args (py "book.epub") (py "book.md") (py "attachments")
              (py "templates/metadata.yml") (py "templates/resources.md")
              (py "notes") 1 false true)
           example_state example_document example_metadata example_resources).
  - reflexivity.
  - reflexivity.
  - reflexivity.
  - reflexivity.
  - by vm_compute.
  - apply (bool_decide_unpack _). by vm_compute.
  - apply (bool_decide_unpack _). by vm_compute.
  - apply (bool_decide_unpack _). by vm_compute.
Defined.

(** ** When [main] returns *)

Lemma foldl_write_chunk_is_Some_iff (outdir_path : str)
    (fs : gmap (list N) (list N)) (chunks : list (list str)) (p : str) :
  is_Some (foldl (write_chunk outdir_path) fs chunks !! p)
  ↔ is_Some (fs !! p) ∨ p ∈ chunk_path outdir_path <$> chunks.
Proof.
  split; [|apply foldl_write_chunk_is_Some].
  destruct (decide (p ∈ chunk_path outdir_path <$> chunks)) as [|Hp];
    [by right|].
  rewrite foldl_write_chunk_other by done. by left.
Qed.

(** X18: when [main] goes beyond the conversion and returns, it has found
    the files it reads: the combined document, and, when the document has
    a heading line, the two templates, each either left by the conversion
    or written by [step_2] as a note. *)
Theorem main_returns_only_with_its_files
    (pandoc : str → str → str → gmap (list N) (list N) → gmap (list N) (list N))
    (a : args) (st : state) :
  arg_step_1 a = false →
  (main pandoc a st).1 = Ok () →
  ∃ document,
    files (converted pandoc a st) !! arg_outfile a = Some document
    ∧ let note_files :=
        note_file_path_of (arg_outdir a)
        <$> List.filter
              (λ line,
                 startswith line (heading_prefix (arg_heading_level a)))
              (splitlines document) in
      note_files = []
      ∨ ((is_Some (files (converted pandoc a st) !! arg_metadata a)
          ∨ arg_metadata a ∈ note_files)
         ∧ (is_Some (files (converted pandoc a st) !! arg_resources a)
            ∨ arg_resources a ∈ note_files)).
Proof.
  intros Hflag. rewrite main_until_step_2 by done.
  set (conv := converted pandoc a st).
  destruct (files conv !! arg_outfile a) as [document|] eqn:Hread.
  2:{ unfold bind. by rewrite step_2_missing. }
  pose proof (step_2_run _ (arg_outdir a) (arg_heading_level a) _ _ Hread)
    as Hrun2.
  cbn zeta in Hrun2.
  pose proof (foldl_write_chunk_is_Some_iff (arg_outdir a) (files conv)
                (chunks_of (splitlines document)
                   (split_indices_of (splitlines document)
                      (heading_prefix (arg_heading_level a))))) as Hsome.
  setoid_rewrite step_2_paths in Hsome. rewrite step_2_paths in Hrun2.
  set (note_files := note_file_path_of (arg_outdir a) <$> _) in *.
  set (st2 := State (foldl _ _ _) _) in Hrun2.
  change (foldl _ _ _) with (files st2) in Hsome.
  unfold bind at 1. rewrite Hrun2.
  intros Hreturns. exists document. split; [done|]. cbn zeta.
  fold note_files. rewrite <- !Hsome.
  destruct note_files as [|note_file rest] eqn:Hnotes; [by left|].
  rewrite <- Hnotes in *. right.
  unfold bind at 1 in Hreturns.
  destruct (step_3 note_files (arg_metadata a) st2) as [[[]|e] st3] eqn:Hrun3;
    [|done].
  assert (is_Some (files st2 !! arg_metadata a)) as Hmetadata.
  { destruct (files st2 !! arg_metadata a) as [metadata|] eqn:Hread3;
      [by eexists|].
    unfold step_3, bind at 1 2, print at 1, read in Hrun3.
    cbn [files console] in Hrun3. by rewrite Hread3 in Hrun3. }
  split; [done|].
  assert (dom (files st3) = dom (files st2)) as Hdom.
  { pose proof (step_3_keeps (λ st', dom (files st') = dom (files st2))
                  note_files (arg_metadata a) st2) as Hkeeps.
    rewrite Hrun3 in Hkeeps. apply Hkeeps; [done| |done].
    intros T q st' _ <-. apply (step_3_body_keeps T q []). }
  unfold bind at 1 in Hreturns.
  destruct (step_4 note_files (arg_resources a) st3) as [[[]|e] st4] eqn:Hrun4;
    [|done].
  apply elem_of_dom. rewrite <- Hdom. apply elem_of_dom.
  destruct (files st3 !! arg_resources a) as [resources|] eqn:Hread4;
    [by eexists|].
  unfold step_4, bind at 1 2, print at 1, read in Hrun4.
  cbn [files console] in Hrun4. by rewrite Hread4 in Hrun4.
Qed.

Lemma main_returns_only_with_its_files_witness :
  let pandoc := λ _ _ _ (fs : gmap (list N) (list N)), fs in
  let a := Args (py "book.epub") (py "book.md") (py "attachments")
             (py "templates/metadata.yml") (py "templates/resources.md")
             (py "notes") 1 false true in
  ∃ document,
    files (converted pandoc a example_state) !! arg_outfile a = Some document
    ∧ let note_files :=
        note_file_path_of (arg_outdir a)
        <$> List.filter
              (λ line,
                 startswith line (heading_prefix (arg_heading_level a)))
              (splitlines document) in
      note_files = []
      ∨ ((is_Some (files (converted pandoc a example_state) !! arg_metadata a)
          ∨ arg_metadata a ∈ note_files)
         ∧ (is_Some (files (converted pandoc a example_state)
                       !! arg_resources a)
            ∨ arg_resources a ∈ note_files)).
Proof.
  apply (main_returns_only_with_its_files (λ _ _ _ fs, fs)
           (Args (py "book.epub") (py "book.md") (py "attachments")
              (py "templates/metadata.yml") (py "templates/resources.md")
              (py "notes") 1 false true)
           example_state).
  - reflexivity.
  - by vm_compute.
Defined.
